(** * openclaw-inwx: the domain-to-hosting provisioning workflow

    A shallow embedding of [src/provisioning.ts] and the properties its
    specification states about it.

    The workflow is an [async] function that calls injected tools.  It is
    embedded as a computation in a small state-and-exception monad: the
    state carries the remote world the tools act on together with a trace
    of what the run did (every awaited tool call with the way it settled,
    every [throw] executed), and the exception channel carries JavaScript
    [throw]/rejection, so that [try]/[catch] is a combinator and not an
    assumption.  An awaited call fulfils, rejects or never settles; when
    it never settles neither does the run.

    The workflow hands its [nameservers] array to the tools by reference
    and reads it again afterwards, so the array is a shared object: a
    call reports what it left in the array, and the workflow goes on
    with that.  No other part of the parameters is both handed to a tool
    and read again after the call.

    The permission guard of [src/guards.ts] is not among the sources; it
    is modelled from section 4.1 of the specification, as a wrapper
    around a tool. *)

From Stdlib Require Import List NArith ZArith Bool String Ascii Lia SpecFloat.
Import ListNotations.

Set Implicit Arguments.
Set Warnings "-register-all".

(* ================================================================== *)
(** ** JavaScript strings *)
(* ================================================================== *)

(** A JavaScript string is a sequence of UTF-16 code units. *)
Definition code_unit := N.
Definition jsstring := list code_unit.

(** String literals of the source, written in ASCII. *)
Definition lit (s : string) : jsstring :=
  map N_of_ascii (list_ascii_of_string s).

(** The double-quote character, U+0022. *)
Definition dquote : jsstring := [34%N].

(** [a === b] on strings. *)
Fixpoint str_eqb (a b : jsstring) : bool :=
  match a, b with
  | [], [] => true
  | x :: a', y :: b' => N.eqb x y && str_eqb a' b'
  | _, _ => false
  end.

(** ECMAScript WhiteSpace and LineTerminator code points: what
    [String.prototype.trim] strips. *)
Definition isWhiteSpace (c : code_unit) : bool :=
  (N.leb 9 c && N.leb c 13)            (* TAB LF VT FF CR *)
  || N.eqb c 32                        (* SPACE *)
  || N.eqb c 160                       (* NO-BREAK SPACE *)
  || N.eqb c 5760                      (* U+1680 *)
  || (N.leb 8192 c && N.leb c 8202)    (* U+2000 .. U+200A *)
  || N.eqb c 8232 || N.eqb c 8233      (* LINE / PARAGRAPH SEPARATOR *)
  || N.eqb c 8239                      (* U+202F *)
  || N.eqb c 8287                      (* U+205F *)
  || N.eqb c 12288                     (* U+3000 *)
  || N.eqb c 65279.                    (* U+FEFF *)

Fixpoint trimStart (s : jsstring) : jsstring :=
  match s with
  | [] => []
  | c :: s' => if isWhiteSpace c then trimStart s' else s
  end.

Definition trimEnd (s : jsstring) : jsstring := rev (trimStart (rev s)).

(** [s.trim()] *)
Definition trim (s : jsstring) : jsstring := trimEnd (trimStart s).

(** Truthiness of a string: [!s] holds exactly for the empty string. *)
Definition str_truthy (s : jsstring) : bool :=
  match s with [] => false | _ :: _ => true end.

(** [needle] occurs in [hay]. *)
Definition occurs_in (needle hay : jsstring) : Prop :=
  exists pre post, hay = pre ++ needle ++ post.

(* ================================================================== *)
(** ** JavaScript values *)
(* ================================================================== *)

(** A number is an IEEE 754 binary64 value. *)
Definition number := spec_float.

(** The literal [1]. *)
Definition number_one : number := S754_finite false 4503599627370496 (-52).

(** The values tools exchange with the engine: JSON-compatible values
    and [undefined].  An object is the list of its own properties. *)
Inductive jsval : Type :=
| JUndefined
| JNull
| JBool (b : bool)
| JNum (n : number)
| JStr (s : jsstring)
| JArr (items : list jsval)
| JObj (props : list (jsstring * jsval)).

(** [JsonMap] of [./types]: a record from property names to values. *)
Definition JsonMap := list (jsstring * jsval).

(** Own-property lookup. *)
Fixpoint get_prop (props : JsonMap) (key : jsstring) : option jsval :=
  match props with
  | [] => None
  | (k, v) :: rest => if str_eqb k key then Some v else get_prop rest key
  end.

(** [Array.isArray(v)] *)
Definition isArray (v : jsval) : bool :=
  match v with JArr _ => true | _ => false end.

(** [v[0]] on an array: [undefined] when the array is empty. *)
Definition index0 (v : jsval) : jsval :=
  match v with
  | JArr (x :: _) => x
  | _ => JUndefined
  end.

(** [v?.key] for a key that no built-in prototype defines (the engine
    only reads [avail]): [undefined] on [undefined] and [null] by the
    optional chain, [undefined] on primitives and arrays because the
    property is missing, the own property on an object. *)
Definition opt_member (v : jsval) (key : jsstring) : jsval :=
  match v with
  | JObj props =>
      match get_prop props key with
      | Some x => x
      | None => JUndefined
      end
  | _ => JUndefined
  end.

(** [Boolean(v)] *)
Definition ToBoolean (v : jsval) : bool :=
  match v with
  | JUndefined | JNull => false
  | JBool b => b
  | JNum n =>
      match n with
      | S754_zero _ | S754_nan => false
      | _ => true
      end
  | JStr s => str_truthy s
  | JArr _ | JObj _ => true
  end.

(* ================================================================== *)
(** ** Parameters, steps and results (provisioning.ts, lines 16-62) *)
(* ================================================================== *)

(** [ProvisionDomainHostingParams]; an optional field is an [option]. *)
Record ProvisionDomainHostingParams : Type := {
  domain : jsstring;
  nameservers : list jsstring;
  serverIp : jsstring;
  clientName : jsstring;
  clientEmail : jsstring;
  createMail : option bool;
  createDb : option bool;
  serverId : option number;
  registrationPeriod : option number;
  contacts : option JsonMap;
  skipRegistration : option bool
}.

(** The [status] union ["ok" | "error" | "skipped"]. *)
Inductive StepStatus : Type := ok_status | error_status | skipped_status.

Definition status_eqb (a b : StepStatus) : bool :=
  match a, b with
  | ok_status, ok_status
  | error_status, error_status
  | skipped_status, skipped_status => true
  | _, _ => false
  end.

(** [ProvisioningStep] *)
Record ProvisioningStep : Type := {
  step : jsstring;
  status : StepStatus;
  data : option jsval;
  error : option jsstring
}.

(** [ProvisioningResult["created"]] *)
Record Created : Type := {
  domainRegistered : option bool;
  nameserversConfigured : option bool;
  hostingProvisioned : option bool;
  ispProvisionResult : option jsval
}.

(** The object literal [{}]. *)
Definition emptyCreated : Created :=
  {| domainRegistered := None; nameserversConfigured := None;
     hostingProvisioned := None; ispProvisionResult := None |}.

(** [ProvisioningResult]; its [domain] field is [resultDomain] here, the
    name [domain] being the parameter record's. *)
Record ProvisioningResult : Type := {
  ok : bool;
  resultDomain : jsstring;
  steps : list ProvisioningStep;
  created : Created
}.

(** The step names and their statuses, in ledger order. *)
Definition outline (l : list ProvisioningStep) : list (jsstring * StepStatus) :=
  map (fun s => (step s, status s)) l.

Definition is_error (s : ProvisioningStep) : bool :=
  status_eqb (status s) error_status.

(** No step of the ledger is an error. *)
Definition clean (l : list ProvisioningStep) : bool :=
  forallb (fun s => negb (is_error s)) l.


(* ================================================================== *)
(** ** Thrown values, calls and events *)
(* ================================================================== *)

(** What a [catch] clause can receive: an [Error] instance with its
    message, or any other value. *)
Inductive thrown : Type :=
| ErrorInstance (message : jsstring)
| ThrownValue (v : jsval).

(** How an awaited call ends: its promise is fulfilled, is rejected, or
    stays pending for ever. *)
Inductive settled : Type :=
| Fulfilled (v : jsval)
| Rejected (e : thrown)
| Pending.

(** What the workflow can observe of a call: how it ended and what it
    did to the array it was handed by reference in [ns].  [nsLeft] is
    [None] when the call left the array as it was and [Some items] when
    the array holds [items] once the call is over. *)
Record reply : Type := {
  settledAs : settled;
  nsLeft : option (list jsval)
}.

(** Replies that leave the array alone. *)
Definition fulfils (v : jsval) : reply :=
  {| settledAs := Fulfilled v; nsLeft := None |}.

Definition rejects (e : thrown) : reply :=
  {| settledAs := Rejected e; nsLeft := None |}.

Definition pends : reply :=
  {| settledAs := Pending; nsLeft := None |}.

(** The contents of a shared array after a call with reply [r]. *)
Definition leftIn (shared : list jsval) (r : reply) : list jsval :=
  match nsLeft r with
  | Some items => items
  | None => shared
  end.

(** What a run does, in order: an awaited [tool.run(args)] with its
    reply, or a [throw]. *)
Inductive event : Type :=
| EvCall (tool : jsstring) (args : JsonMap) (out : reply)
| EvThrow (e : thrown).

(** The exception an event raises in the engine, if any. *)
Definition raised (ev : event) : option thrown :=
  match ev with
  | EvCall _ _ r =>
      match settledAs r with
      | Rejected e => Some e
      | Fulfilled _ | Pending => None
      end
  | EvThrow e => Some e
  end.

(** The response the engine receives at an event. *)
Definition response (ev : event) : reply :=
  match ev with
  | EvCall _ _ r => r
  | EvThrow e => rejects e
  end.

Definition is_call_of (nm : jsstring) (ev : event) : bool :=
  match ev with
  | EvCall t _ _ => str_eqb t nm
  | EvThrow _ => false
  end.

(** The tool named [nm] was invoked somewhere in the trace. *)
Definition invoked (nm : jsstring) (tr : list event) : bool :=
  existsb (is_call_of nm) tr.

(** The event is a call that was fulfilled. *)
Definition succeeded (ev : event) : bool :=
  match ev with
  | EvCall _ _ r =>
      match settledAs r with
      | Fulfilled _ => true
      | Rejected _ | Pending => false
      end
  | EvThrow _ => false
  end.

(** The event is not a call that stays pending. *)
Definition settles (ev : event) : bool :=
  match ev with
  | EvCall _ _ r =>
      match settledAs r with
      | Pending => false
      | Fulfilled _ | Rejected _ => true
      end
  | EvThrow _ => true
  end.

(** The [TypeError] of [String(v)] for a value that has no primitive
    form; the message is the one of V8. *)
Definition typeError : thrown :=
  ErrorInstance (lit "Cannot convert object to primitive value").

(** How a computation ends: it returns, it throws, or it waits for ever
    on a call that never settles. *)
Inductive completion (A : Type) : Type :=
| Returns (a : A)
| Throws (e : thrown)
| Hangs.
Arguments Returns {A} a.
Arguments Throws {A} e.
Arguments Hangs {A}.

Section Engine.

(** The remote systems the tools talk to. *)
Variable World : Type.

(** [Number::toString], the standard conversion of a number to its
    shortest decimal form; the engine reaches it only through
    [String(err)]. *)
Variable NumberToString : number -> jsstring.

(** [String(v)]; [None] when the conversion throws a [TypeError].  An
    object is converted by its [toString] method and then by [valueOf].
    An own [toString] property of a JSON-compatible object is never a
    function, so it hides [Object.prototype.toString]; [valueOf], own or
    inherited, gives no primitive either, and the conversion throws.
    Without an own [toString] the inherited one answers.  An array is
    joined, which converts its elements in turn. *)
Fixpoint ToString (v : jsval) : option jsstring :=
  match v with
  | JUndefined => Some (lit "undefined")
  | JNull => Some (lit "null")
  | JBool true => Some (lit "true")
  | JBool false => Some (lit "false")
  | JNum n => Some (NumberToString n)
  | JStr s => Some s
  | JArr items =>
      (* Array.prototype.join: null and undefined elements are empty *)
      (fix join (l : list jsval) : option jsstring :=
         match l with
         | [] => Some []
         | x :: rest =>
             let ox := match x with
                       | JUndefined | JNull => Some []
                       | _ => ToString x
                       end in
             match ox with
             | None => None
             | Some sx =>
                 match rest with
                 | [] => Some sx
                 | _ :: _ =>
                     match join rest with
                     | None => None
                     | Some sr => Some (sx ++ lit "," ++ sr)
                     end
                 end
             end
         end) items
  | JObj props =>
      match get_prop props (lit "toString") with
      | Some _ => None
      | None => Some (lit "[object Object]")
      end
  end.

(** [err instanceof Error ? err.message : String(err)]; [None] when
    [String(err)] throws. *)
Definition errorMessage (err : thrown) : option jsstring :=
  match err with
  | ErrorInstance message => Some message
  | ThrownValue v => ToString v
  end.

(** The event raises nothing, or something [errorMessage] can turn into
    a message. *)
Definition convertible (ev : event) : bool :=
  match raised ev with
  | None => true
  | Some e => match errorMessage e with Some _ => true | None => false end
  end.

(* ------------------------------------------------------------------ *)
(** *** The monad of the engine *)

Record State : Type := { world : World; trace : list event }.

Definition init (w : World) : State := {| world := w; trace := [] |}.

Definition log (ev : event) (st : State) : State :=
  {| world := world st; trace := trace st ++ [ev] |}.

Definition M (A : Type) : Type := State -> completion A * State.

Definition ret {A} (a : A) : M A := fun st => (Returns a, st).

Definition bind {A B} (m : M A) (k : A -> M B) : M B :=
  fun st =>
    match m st with
    | (Returns a, st') => k a st'
    | (Throws e, st') => (Throws e, st')
    | (Hangs, st') => (Hangs, st')
    end.

(** [throw e] *)
Definition throw {A} (e : thrown) : M A :=
  fun st => (Throws e, log (EvThrow e) st).

(** [try { body } catch (err) { handler }] *)
Definition try_catch {A} (body : M A) (handler : thrown -> M A) : M A :=
  fun st =>
    match body st with
    | (Returns a, st') => (Returns a, st')
    | (Throws e, st') => handler e st'
    | (Hangs, st') => (Hangs, st')
    end.

Notation "x <- m ;; k" := (bind m (fun x => k))
  (at level 61, m at next level, right associativity).

(* ------------------------------------------------------------------ *)
(** *** Tools (lines 7-10, 68-74) *)

(** [ExternalBoundTool]: a name and an asynchronous [run].  Running a
    tool on a world leaves a new world and gives a reply. *)
Record ExternalBoundTool : Type := {
  name : jsstring;
  run : JsonMap -> World -> reply * World
}.

(** [tool.run(args)], up to the point where its promise is awaited. *)
Definition call (tool : ExternalBoundTool) (args : JsonMap)
  : State -> reply * State :=
  fun st =>
    let (r, w') := run tool args (world st) in
    (r, log (EvCall (name tool) args r) {| world := w'; trace := trace st |}).

(** [await tool.run(args)]: a rejection is thrown at the [await], and a
    promise that stays pending is awaited for ever. *)
Definition await_run (tool : ExternalBoundTool) (args : JsonMap) : M jsval :=
  fun st =>
    let (r, st') := call tool args st in
    match settledAs r with
    | Fulfilled v => (Returns v, st')
    | Rejected e => (Throws e, st')
    | Pending => (Hangs, st')
    end.

(** [await tool.run(args)] for a call whose [args] hold a reference to
    an array the workflow reads again: the value, and the array as the
    call left it. *)
Definition await_run_sharing (tool : ExternalBoundTool) (args : JsonMap)
    (shared : list jsval) : M (jsval * list jsval) :=
  fun st =>
    let (r, st') := call tool args st in
    match settledAs r with
    | Fulfilled v => (Returns (v, leftIn shared r), st')
    | Rejected e => (Throws e, st')
    | Pending => (Hangs, st')
    end.

(** The message of the error [findTool] throws. *)
Definition notFoundMessage (nm : jsstring) : jsstring :=
  lit "Required tool " ++ dquote ++ nm ++ dquote
    ++ lit " not found in provided toolset".

(** [findTool(tools, name)] *)
Definition findTool (tools : list ExternalBoundTool) (nm : jsstring)
  : M ExternalBoundTool :=
  match find (fun t => str_eqb (name t) nm) tools with
  | Some tool => ret tool
  | None => throw (ErrorInstance (notFoundMessage nm))
  end.

(* ------------------------------------------------------------------ *)
(** *** The workflow (lines 100-191) *)

(** Where control goes after a stage: out of the function with a
    result, or on to the next stage with the updated locals. *)
Inductive flow (A : Type) : Type :=
| Return (r : ProvisioningResult)
| Next (locals : A).
Arguments Return {A} r.
Arguments Next {A} locals.

Definition okStep (nm : jsstring) (d : jsval) : ProvisioningStep :=
  {| step := nm; status := ok_status; data := Some d; error := None |}.

Definition errorStep (nm : jsstring) (msg : jsstring) : ProvisioningStep :=
  {| step := nm; status := error_status; data := None; error := Some msg |}.

Definition skippedStep (nm : jsstring) (reason : jsstring) : ProvisioningStep :=
  {| step := nm; status := skipped_status;
     data := Some (JObj [(lit "reason", JStr reason)]); error := None |}.

(** The [catch] clause shared by the four stages: push the error step
    and return.  [errorMessage(err)] is evaluated first; when it throws,
    the exception leaves the function. *)
Definition abort {A} (nm : jsstring) (dom : jsstring)
    (steps0 : list ProvisioningStep) (created0 : Created) (err : thrown)
  : M (flow A) :=
  match errorMessage err with
  | Some msg =>
      ret (Return {| ok := false; resultDomain := dom;
                     steps := steps0 ++ [errorStep nm msg];
                     created := created0 |})
  | None => throw typeError
  end.

(** Lines 123-124: the availability read off the check result. *)
Definition availability (raw : jsval) : bool :=
  let checkResult := if isArray raw then index0 raw else raw in
  ToBoolean (opt_member checkResult (lit "avail")).

(** Step 1, lines 118-129. *)
Definition checkStage (inwxTools : list ExternalBoundTool) (dom : jsstring)
    (steps0 : list ProvisioningStep) (created0 : Created)
  : M (flow (bool * list ProvisioningStep)) :=
  try_catch
    (checkTool <- findTool inwxTools (lit "inwx_domain_check") ;;
     raw <- await_run checkTool [(lit "domain", JStr dom)] ;;
     let domainAvailable := availability raw in
     ret (Next (domainAvailable,
                steps0 ++ [okStep (lit "domain_check")
                             (JObj [(lit "domain", JStr dom);
                                    (lit "available", JBool domainAvailable)])])))
    (fun err => abort (lit "domain_check") dom steps0 created0 err).

Definition setDomainRegistered (b : bool) (c : Created) : Created :=
  {| domainRegistered := Some b;
     nameserversConfigured := nameserversConfigured c;
     hostingProvisioned := hostingProvisioned c;
     ispProvisionResult := ispProvisionResult c |}.

Definition setNameserversConfigured (b : bool) (c : Created) : Created :=
  {| domainRegistered := domainRegistered c;
     nameserversConfigured := Some b;
     hostingProvisioned := hostingProvisioned c;
     ispProvisionResult := ispProvisionResult c |}.

Definition setHostingProvisioned (b : bool) (r : jsval) (c : Created) : Created :=
  {| domainRegistered := domainRegistered c;
     nameserversConfigured := nameserversConfigured c;
     hostingProvisioned := Some b;
     ispProvisionResult := Some r |}.

(** [x ?? d] *)
Definition nullish {A} (x : option A) (d : A) : A :=
  match x with Some a => a | None => d end.

(** Truthiness of an optional boolean field. *)
Definition flag (x : option bool) : bool := nullish x false.

(** The array [params.nameservers] as the caller built it. *)
Definition nsArray (ns : list jsstring) : list jsval := map JStr ns.

(** The argument record of the registration call, lines 138-143; [ns]
    is what [params.nameservers] holds at the call. *)
Definition registerArgs (dom : jsstring) (params : ProvisionDomainHostingParams)
    (ns : list jsval) : JsonMap :=
  [(lit "domain", JStr dom);
   (lit "period", JNum (nullish (registrationPeriod params) number_one));
   (lit "ns", JArr ns);
   (lit "contacts", match contacts params with
                    | Some c => JObj c
                    | None => JUndefined
                    end)].

(** Step 2, lines 131-153.  The register tool is handed the nameserver
    array itself; the stage passes on what the call left in it. *)
Definition registerStage (inwxTools : list ExternalBoundTool) (dom : jsstring)
    (params : ProvisionDomainHostingParams) (domainAvailable : bool)
    (ns : list jsval)
    (steps0 : list ProvisioningStep) (created0 : Created)
  : M (flow (list ProvisioningStep * Created * list jsval)) :=
  if flag (skipRegistration params) then
    ret (Next (steps0 ++ [skippedStep (lit "domain_register")
                            (lit "skipRegistration=true")],
               setDomainRegistered false created0, ns))
  else if domainAvailable then
    try_catch
      (registerTool <- findTool inwxTools (lit "inwx_domain_register") ;;
       settled <- await_run_sharing registerTool
                    (registerArgs dom params ns) ns ;;
       let (regResult, nsAfter) := settled in
       ret (Next (steps0 ++ [okStep (lit "domain_register") regResult],
                  setDomainRegistered true created0, nsAfter)))
      (fun err => abort (lit "domain_register") dom steps0 created0 err)
  else
    ret (Next (steps0 ++ [skippedStep (lit "domain_register")
                            (lit "domain not available")],
               setDomainRegistered false created0, ns)).

(** Step 3, lines 155-168; [ns] is what [params.nameservers] holds when
    line 156 reads it. *)
Definition nameserverStage (inwxTools : list ExternalBoundTool) (dom : jsstring)
    (ns : list jsval)
    (steps0 : list ProvisioningStep) (created0 : Created)
  : M (flow (list ProvisioningStep * Created)) :=
  if Nat.ltb 0 (List.length ns) then
    try_catch
      (nsTool <- findTool inwxTools (lit "inwx_nameserver_set") ;;
       nsResult <- await_run nsTool
                     [(lit "domain", JStr dom); (lit "ns", JArr ns)] ;;
       ret (Next (steps0 ++ [okStep (lit "nameserver_set") nsResult],
                  setNameserversConfigured true created0)))
      (fun err => abort (lit "nameserver_set") dom steps0 created0 err)
  else
    ret (Next (steps0 ++ [skippedStep (lit "nameserver_set")
                            (lit "no nameservers provided")],
               created0)).

(** The argument record of the hosting call, lines 173-181; [serverId]
    is spread in only when it is given. *)
Definition provisionArgs (dom : jsstring) (params : ProvisionDomainHostingParams)
  : JsonMap :=
  [(lit "domain", JStr dom);
   (lit "clientName", JStr (clientName params));
   (lit "clientEmail", JStr (clientEmail params));
   (lit "serverIp", JStr (serverIp params));
   (lit "createMail", JBool (nullish (createMail params) true));
   (lit "createDb", JBool (nullish (createDb params) true))]
  ++ match serverId params with
     | Some n => [(lit "serverId", JNum n)]
     | None => []
     end.

(** Step 4, lines 170-188. *)
Definition hostingStage (ispTools : list ExternalBoundTool) (dom : jsstring)
    (params : ProvisionDomainHostingParams)
    (steps0 : list ProvisioningStep) (created0 : Created)
  : M (flow (list ProvisioningStep * Created)) :=
  try_catch
    (provisionTool <- findTool ispTools (lit "isp_provision_site") ;;
     ispResult <- await_run provisionTool (provisionArgs dom params) ;;
     ret (Next (steps0 ++ [okStep (lit "isp_provision") ispResult],
                setHostingProvisioned true ispResult created0)))
    (fun err => abort (lit "isp_provision") dom steps0 created0 err).

(** [provisionDomainWithHosting(inwxTools, ispTools, params)] *)
Definition provisionDomainWithHosting
    (inwxTools ispTools : list ExternalBoundTool)
    (params : ProvisionDomainHostingParams) : M ProvisioningResult :=
  let steps0 := [] in
  let created0 := emptyCreated in
  let ns0 := nsArray (nameservers params) in
  let dom := trim (domain params) in
  if negb (str_truthy dom) then
    ret {| ok := false; resultDomain := [];
           steps := [errorStep (lit "validate") (lit "domain is required")];
           created := created0 |}
  else
    r1 <- checkStage inwxTools dom steps0 created0 ;;
    match r1 with
    | Return r => ret r
    | Next (domainAvailable, steps1) =>
    r2 <- registerStage inwxTools dom params domainAvailable ns0
            steps1 created0 ;;
    match r2 with
    | Return r => ret r
    | Next (steps2, created2, ns2) =>
    r3 <- nameserverStage inwxTools dom ns2 steps2 created2 ;;
    match r3 with
    | Return r => ret r
    | Next (steps3, created3) =>
    r4 <- hostingStage ispTools dom params steps3 created3 ;;
    match r4 with
    | Return r => ret r
    | Next (steps4, created4) =>
        ret {| ok := true; resultDomain := dom;
               steps := steps4; created := created4 |}
    end end end end.


(* ------------------------------------------------------------------ *)
(** *** Views of a run used by the statements below *)

(** What the [try] block of a stage receives: the tool is looked up and,
    when present, called; the reply is the one of the call, or the
    rejection with the error thrown by the lookup. *)
Definition attempt (tools : list ExternalBoundTool) (nm : jsstring)
    (args : JsonMap) (st : State) : reply * State :=
  match find (fun t => str_eqb (name t) nm) tools with
  | None =>
      let e := ErrorInstance (notFoundMessage nm) in
      (rejects e, log (EvThrow e) st)
  | Some tool => call tool args st
  end.

(** The availability the check operation reported in a run: read off the
    first fulfilled call of [inwx_domain_check] in the trace. *)
Fixpoint reportedAvailability (tr : list event) : option bool :=
  match tr with
  | [] => None
  | EvCall t _ r :: rest =>
      match settledAs r with
      | Fulfilled raw =>
          if str_eqb t (lit "inwx_domain_check") then Some (availability raw)
          else reportedAvailability rest
      | Rejected _ | Pending => reportedAvailability rest
      end
  | EvThrow _ :: rest => reportedAvailability rest
  end.

(** What the specification calls the first/only record of a check
    result: the result itself when it is a record, its first element
    when it is a sequence that starts with a record. *)
Definition firstOrOnlyRecord (raw : jsval) : option JsonMap :=
  match raw with
  | JObj props => Some props
  | JArr (JObj props :: _) => Some props
  | _ => None
  end.

(** The reply of the first call of a tool, if the run called it. *)
Fixpoint callReply (nm : jsstring) (tr : list event) : option reply :=
  match tr with
  | [] => None
  | EvCall t _ r :: rest =>
      if str_eqb t nm then Some r else callReply nm rest
  | EvThrow _ :: rest => callReply nm rest
  end.

(** How the first call of a tool ended, if the run called it. *)
Definition callOutcome (nm : jsstring) (tr : list event) : option settled :=
  option_map settledAs (callReply nm tr).

(** The argument record of the first call of a tool, if the run called
    it. *)
Fixpoint callArgs (nm : jsstring) (tr : list event) : option JsonMap :=
  match tr with
  | [] => None
  | EvCall t args _ :: rest =>
      if str_eqb t nm then Some args else callArgs nm rest
  | EvThrow _ :: rest => callArgs nm rest
  end.

(** What [params.nameservers] holds once the registration stage is
    over, which is what line 156 reads: the array as the register call
    left it when the run made that call, the array as given otherwise. *)
Definition nameserversAfterRegistration
    (params : ProvisionDomainHostingParams) (tr : list event) : list jsval :=
  match callReply (lit "inwx_domain_register") tr with
  | Some r => leftIn (nsArray (nameservers params)) r
  | None => nsArray (nameservers params)
  end.

(** One attempted stage seen from the way its call settled: a value
    lets the workflow go on with [k]; an error must be the last response
    and closes the outline [pre] with the error step of [nm]. *)
Definition received {A} (nm : jsstring) (pre : list (jsstring * StepStatus))
    (rs : list settled)
    (k : jsval -> list settled
         -> option (list (jsstring * StepStatus) * A))
    (failed : A) : option (list (jsstring * StepStatus) * A) :=
  match rs with
  | [] => None
  | Fulfilled v :: rest => k v rest
  | Rejected _ :: rest =>
      match rest with
      | [] => Some (pre ++ [(nm, error_status)], failed)
      | _ :: _ => None
      end
  | Pending :: _ => None
  end.

(** The branching of the workflow laid bare: the outline of the ledger
    and the [ok] flag of a run that returns, as a function of the
    parameters, of what the nameserver array holds when the registration
    stage is over ([nsAfter]) and of the responses the run receives, in
    order.  It is [None] on a list that is not the list of responses of
    such a run.  That runs follow it is a lemma below, not an
    assumption. *)
Definition branching (params : ProvisionDomainHostingParams)
    (nsAfter : list jsval) (rs : list settled)
    : option (list (jsstring * StepStatus) * bool) :=
  let hosting l rs :=
    received (lit "isp_provision") l rs
      (fun _ rs =>
         match rs with
         | [] => Some (l ++ [(lit "isp_provision", ok_status)], true)
         | _ :: _ => None
         end) false in
  let nameserver l rs :=
    match nsAfter with
    | [] => hosting (l ++ [(lit "nameserver_set", skipped_status)]) rs
    | _ :: _ =>
        received (lit "nameserver_set") l rs
          (fun _ rs => hosting (l ++ [(lit "nameserver_set", ok_status)]) rs)
          false
    end in
  if negb (str_truthy (trim (domain params))) then
    match rs with
    | [] => Some ([(lit "validate", error_status)], false)
    | _ :: _ => None
    end
  else
    received (lit "domain_check") [] rs
      (fun raw rs =>
         let l := [(lit "domain_check", ok_status)] in
         if flag (skipRegistration params) then
           nameserver (l ++ [(lit "domain_register", skipped_status)]) rs
         else if availability raw then
           received (lit "domain_register") l rs
             (fun _ rs =>
                nameserver (l ++ [(lit "domain_register", ok_status)]) rs)
             false
         else
           nameserver (l ++ [(lit "domain_register", skipped_status)]) rs)
      false.

(* ------------------------------------------------------------------ *)
(** *** The permission guard (specification, section 4.1) *)

(** Modelled from the spec: the permission policy of [src/guards.ts],
    which is not among the sources at hand.  "Permission Policy:
    [{ readOnly: boolean, allowList: set of operation names (empty =
    unrestricted) }]"; the configuration calls the allow-list
    [allowedOperations]. *)
Record PermissionPolicy : Type := {
  readOnly : bool;
  allowedOperations : list jsstring
}.

(** Modelled from the spec: the read/write classification of an
    operation, "provided by the domain-specific registry builder, not
    inferred". *)
Inductive OperationClass : Type := ReadOperation | WriteOperation.

Definition isWrite (c : OperationClass) : bool :=
  match c with WriteOperation => true | ReadOperation => false end.

(** [list.includes(nm)] *)
Definition includes (l : list jsstring) (nm : jsstring) : bool :=
  existsb (fun x => str_eqb x nm) l.

(** Modelled from the spec: the rules of section 4.1 that a call
    violates.  The section gives each rule its own rejection clause
    ("if [readOnly] is true and the operation is classified as a write",
    "if the allow-list is non-empty and the operation's name is absent
    from it ... regardless of read/write classification") and does not
    order them, so both clauses are evaluated. *)
Definition violatedRules (policy : PermissionPolicy) (cls : OperationClass)
    (nm : jsstring) : list jsstring :=
  (if readOnly policy && isWrite cls then [lit "readOnly"] else [])
  ++ (if Nat.ltb 0 (List.length (allowedOperations policy))
         && negb (includes (allowedOperations policy) nm)
      then [lit "allowedOperations"] else []).

Fixpoint joinWith (sep : jsstring) (l : list jsstring) : jsstring :=
  match l with
  | [] => []
  | x :: rest =>
      match rest with
      | [] => x
      | _ :: _ => x ++ sep ++ joinWith sep rest
      end
  end.

(** Modelled from the spec: the "policy-violation error identifying the
    operation and the violated rule".  The wording of the message is not
    specified; only what it identifies is. *)
Definition policyViolation (nm : jsstring) (rules : list jsstring) : thrown :=
  ErrorInstance (lit "Operation " ++ nm ++ lit " is blocked by policy: "
                   ++ joinWith (lit ", ") rules).

(** Modelled from the spec: the guard of [src/guards.ts] as a wrapper
    around an operation.  A call that violates a rule is rejected before
    the wrapped operation runs; any other call is forwarded unchanged. *)
Definition guard (policy : PermissionPolicy) (cls : OperationClass)
    (op : ExternalBoundTool) : ExternalBoundTool :=
  {| name := name op;
     run := fun args w =>
       match violatedRules policy cls (name op) with
       | [] => run op args w
       | rules => (rejects (policyViolation (name op) rules), w)
       end |}.

End Engine.

Arguments Return {A} r.
Arguments Next {A} locals.

Notation "x <- m ;; k" := (bind m (fun x => k))
  (at level 61, m at next level, right associativity).

Arguments lit : simpl never.
Arguments trim : simpl never.

(* ------------------------------------------------------------------ *)
(** *** Further views of a run *)

(** The tools a run called, in call order. *)
Fixpoint callNames (tr : list event) : list jsstring :=
  match tr with
  | [] => []
  | EvCall t _ _ :: rest => t :: callNames rest
  | EvThrow _ :: rest => callNames rest
  end.

(** [a] is [b] with some elements left out, the order kept. *)
Fixpoint isSubsequence (a b : list jsstring) : bool :=
  match a, b with
  | [], _ => true
  | _ :: _, [] => false
  | x :: a', y :: b' =>
      if str_eqb x y then isSubsequence a' b' else isSubsequence a b'
  end.

(** The four tools the workflow asks for, in the order of its stages. *)
Definition workflowTools : list jsstring :=
  [lit "inwx_domain_check"; lit "inwx_domain_register";
   lit "inwx_nameserver_set"; lit "isp_provision_site"].

(** The four step names a ledger can hold after validation, in order. *)
Definition stageNames : list jsstring :=
  [lit "domain_check"; lit "domain_register";
   lit "nameserver_set"; lit "isp_provision"].

(** The ledger has a step of this name and status. *)
Definition hasStep (nm : jsstring) (s : StepStatus)
    (l : list ProvisioningStep) : bool :=
  existsb (fun x => str_eqb (step x) nm && status_eqb (status x) s) l.

(** A tool set has a tool of this name. *)
Definition hasTool {World} (tools : list (ExternalBoundTool World))
    (nm : jsstring) : bool :=
  existsb (fun t => str_eqb (name t) nm) tools.

(** The shape of a step as the workflow pushes it: an error step has a
    message and no data, any other step has data and no message, and the
    data of a skipped step is a record with the one property [reason]. *)
Definition stepShape (s : ProvisioningStep) : bool :=
  match status s, data s, error s with
  | error_status, None, Some _ => true
  | ok_status, Some _, None => true
  | skipped_status, Some (JObj [(k, JStr _)]), None => str_eqb k (lit "reason")
  | _, _, _ => false
  end.

(** The message of the error the [findTool] of the integration tests
    throws (tests, line 242). *)
Definition oteNotFoundMessage (nm : jsstring) : jsstring :=
  lit "Tool " ++ nm ++ lit " not found in toolset".

(** The [findTool] helper of the integration tests (tests, lines
    240-244), on tools of the shape [ExternalBoundTool] mirrors. *)
Definition findToolOte {World} (tools : list (ExternalBoundTool World))
    (nm : jsstring) : M World (ExternalBoundTool World) :=
  match find (fun t => str_eqb (name t) nm) tools with
  | Some tool => ret tool
  | None => throw (ErrorInstance (oteNotFoundMessage nm))
  end.

(** The one event an attempt appends to the trace: the call under the
    looked-up name, or the [throw] of [findTool]. *)
Inductive attempt_event (nm : jsstring) (args : JsonMap)
  : reply -> event -> Prop :=
| attempt_called r : attempt_event nm args r (EvCall nm args r)
| attempt_missing :
    attempt_event nm args (rejects (ErrorInstance (notFoundMessage nm)))
                  (EvThrow (ErrorInstance (notFoundMessage nm))).

(* ================================================================== *)
(** ** Fixtures: the mocks of [tests/provisioning.test.ts] *)
(* ================================================================== *)

Module Fixtures.

(** The mock world counts the remote calls made so far. *)
Definition World := nat.

(** A stand-in for [Number::toString]; no fixture throws a number. *)
Definition numberToString (n : number) : jsstring := lit "<number>".

(** [mockTool(name, result)] *)
Definition mockTool (nm : jsstring) (result : jsval) : ExternalBoundTool World :=
  {| name := nm; run := fun _ w => (fulfils result, S w) |}.

(** A tool whose [run] throws [new Error(msg)]. *)
Definition failingTool (nm : jsstring) (msg : jsstring) : ExternalBoundTool World :=
  {| name := nm; run := fun _ w => (rejects (ErrorInstance msg), S w) |}.

(** [baseParams()] *)
Definition baseParams : ProvisionDomainHostingParams :=
  {| domain := lit "example.com";
     nameservers := [lit "ns1.hosting.de"; lit "ns2.hosting.de"];
     serverIp := lit "1.2.3.4";
     clientName := lit "Acme Corp";
     clientEmail := lit "admin@acme.com";
     createMail := None; createDb := None; serverId := None;
     registrationPeriod := None; contacts := None;
     skipRegistration := None |}.

Definition withDomain (d : jsstring) (p : ProvisionDomainHostingParams) :=
  {| domain := d; nameservers := nameservers p; serverIp := serverIp p;
     clientName := clientName p; clientEmail := clientEmail p;
     createMail := createMail p; createDb := createDb p;
     serverId := serverId p; registrationPeriod := registrationPeriod p;
     contacts := contacts p; skipRegistration := skipRegistration p |}.

Definition withNameservers (ns : list jsstring) (p : ProvisionDomainHostingParams) :=
  {| domain := domain p; nameservers := ns; serverIp := serverIp p;
     clientName := clientName p; clientEmail := clientEmail p;
     createMail := createMail p; createDb := createDb p;
     serverId := serverId p; registrationPeriod := registrationPeriod p;
     contacts := contacts p; skipRegistration := skipRegistration p |}.

Definition withSkipRegistration (b : bool) (p : ProvisionDomainHostingParams) :=
  {| domain := domain p; nameservers := nameservers p; serverIp := serverIp p;
     clientName := clientName p; clientEmail := clientEmail p;
     createMail := createMail p; createDb := createDb p;
     serverId := serverId p; registrationPeriod := registrationPeriod p;
     contacts := contacts p; skipRegistration := Some b |}.

(** The check result [[{ domain, avail }]]. *)
Definition checkResult (d : jsstring) (avail : bool) : jsval :=
  JArr [JObj [(lit "domain", JStr d); (lit "avail", JBool avail)]].

Definition checkTool (avail : bool) : ExternalBoundTool World :=
  mockTool (lit "inwx_domain_check") (checkResult (lit "example.com") avail).

Definition registerTool : ExternalBoundTool World :=
  mockTool (lit "inwx_domain_register")
           (JObj [(lit "domain", JStr (lit "example.com"))]).

Definition nameserverTool : ExternalBoundTool World :=
  mockTool (lit "inwx_nameserver_set") (JObj []).

(** [inwxToolset()] *)
Definition inwxToolset : list (ExternalBoundTool World) :=
  [checkTool true; registerTool; nameserverTool].

(** [inwxToolset({ inwx_domain_check: ... avail: false })] *)
Definition inwxToolsetTaken : list (ExternalBoundTool World) :=
  [checkTool false; registerTool; nameserverTool].

(** [ispToolset()] *)
Definition ispToolset : list (ExternalBoundTool World) :=
  [mockTool (lit "isp_provision_site")
            (JObj [(lit "ok", JBool true);
                   (lit "domain", JStr (lit "example.com"))])].

(** One run of the workflow from a world in which nothing was called. *)
Definition provision (inwxTools ispTools : list (ExternalBoundTool World))
    (params : ProvisionDomainHostingParams) :=
  provisionDomainWithHosting numberToString inwxTools ispTools params (init 0).

(** What the tests inspect of a run: [ok], the outline of the ledger,
    the error messages, [created], and the number of remote calls. *)
Definition digest (r : completion ProvisioningResult * State World) :=
  match r with
  | (Returns res, st) =>
      Some (ok res, outline (steps res),
            map (@error) (steps res), created res, world st)
  | (Throws _, _) | (Hangs, _) => None
  end.

Definition allCreated (r : jsval) : Created :=
  {| domainRegistered := Some true; nameserversConfigured := Some true;
     hostingProvisioned := Some true; ispProvisionResult := Some r |}.

Definition ispResult : jsval :=
  JObj [(lit "ok", JBool true); (lit "domain", JStr (lit "example.com"))].

Definition skipParams : ProvisionDomainHostingParams :=
  withSkipRegistration true baseParams.

Definition blankParams : ProvisionDomainHostingParams :=
  withDomain (lit "  ") baseParams.


(** A second registrar tool set that answers like [inwxToolset]: the
    tools come in another order, next to one the workflow never asks
    for, and touch the world differently. *)
Definition inwxToolsetB : list (ExternalBoundTool World) :=
  [nameserverTool;
   mockTool (lit "inwx_domain_list") (JObj []);
   {| name := lit "inwx_domain_register";
      run := fun _ w =>
        (fulfils (JObj [(lit "domain", JStr (lit "example.com"))]),
         (w + 10)%nat) |};
   checkTool true].

Definition readOnlyPolicy : PermissionPolicy :=
  {| readOnly := true; allowedOperations := [] |}.

Definition accountOnlyPolicy : PermissionPolicy :=
  {| readOnly := false; allowedOperations := [lit "inwx_account_info"] |}.

End Fixtures.

(** Further mocks, for the behaviour beyond the tested scenarios. *)
Module MoreFixtures.
Import Fixtures.

(** The literal [2]. *)
Definition number_two : number := S754_finite false 4503599627370496 (-51).

(** The registrar tool set whose registration fails for lack of funds. *)
Definition inwxRegisterFails : list (ExternalBoundTool World) :=
  [checkTool true;
   failingTool (lit "inwx_domain_register") (lit "Insufficient balance");
   nameserverTool].

(** [baseParams({ nameservers: [] })] *)
Definition noNameserverParams : ProvisionDomainHostingParams :=
  withNameservers [] baseParams.

(** [baseParams({ createMail: false, createDb: false, serverId: 2 })] *)
Definition hostingParams : ProvisionDomainHostingParams :=
  {| domain := domain baseParams; nameservers := nameservers baseParams;
     serverIp := serverIp baseParams; clientName := clientName baseParams;
     clientEmail := clientEmail baseParams;
     createMail := Some false; createDb := Some false;
     serverId := Some number_two;
     registrationPeriod := None; contacts := None;
     skipRegistration := None |}.

(** A check tool that answers with a bare record whose [avail] is the
    string ["false"]. *)
Definition checkRecord : jsval :=
  JObj [(lit "domain", JStr (lit "example.com"));
        (lit "avail", JStr (lit "false"))].

Definition inwxAvailAsString : list (ExternalBoundTool World) :=
  [mockTool (lit "inwx_domain_check") checkRecord;
   registerTool; nameserverTool].

(** [baseParams({ domain: "  example.com " })] *)
Definition paddedParams : ProvisionDomainHostingParams :=
  withDomain (lit "  example.com ") baseParams.

(** A tool whose [run] throws a value that is not an [Error]. *)
Definition throwingTool (nm : jsstring) (v : jsval) : ExternalBoundTool World :=
  {| name := nm; run := fun _ w => (rejects (ThrownValue v), S w) |}.

(** The object [{ toString: 1 }], which [String] cannot convert. *)
Definition noString : jsval := JObj [(lit "toString", JNum number_one)].

(** A tool whose promise never settles. *)
Definition pendingTool (nm : jsstring) : ExternalBoundTool World :=
  {| name := nm; run := fun _ w => (pends, S w) |}.

(** A register tool that succeeds and leaves [items] in the nameserver
    array it was handed. *)
Definition registerToolLeaving (items : list jsval) : ExternalBoundTool World :=
  {| name := lit "inwx_domain_register";
     run := fun _ w =>
       ({| settledAs := Fulfilled (JObj [(lit "domain", JStr (lit "example.com"))]);
           nsLeft := Some items |}, S w) |}.

(** The registrar tool set whose register tool empties the array. *)
Definition inwxEmptiesNameservers : list (ExternalBoundTool World) :=
  [checkTool true; registerToolLeaving []; nameserverTool].

(** The registrar tool set whose register tool fills the array, and
    which has no nameserver tool. *)
Definition inwxFillsNameservers : list (ExternalBoundTool World) :=
  [checkTool true; registerToolLeaving [JStr (lit "ns1.registrar.example")]].

(** The same with a nameserver tool, for an empty list that the
    register tool fills. *)
Definition inwxFillsThenSets : list (ExternalBoundTool World) :=
  [checkTool true; registerToolLeaving [JStr (lit "ns1.registrar.example")];
   nameserverTool].

(** A check tool that answers with the bare record
    [{ domain, avail }]. *)
Definition bareCheckTool (avail : bool) : ExternalBoundTool World :=
  mockTool (lit "inwx_domain_check")
           (JObj [(lit "domain", JStr (lit "example.com"));
                  (lit "avail", JBool avail)]).

(** The hosting tool set whose tool answers like [nameserverTool]. *)
Definition ispToolsetPlain : list (ExternalBoundTool World) :=
  [mockTool (lit "isp_provision_site") (JObj [])].

(** The registrar tool set whose check tool fails. *)
Definition inwxCheckFails : list (ExternalBoundTool World) :=
  [failingTool (lit "inwx_domain_check") (lit "API timeout");
   registerTool; nameserverTool].

(** The registrar tool set whose check tool answers with a bare
    record. *)
Definition inwxBareRecord (avail : bool) : list (ExternalBoundTool World) :=
  [bareCheckTool avail; registerTool; nameserverTool].

End MoreFixtures.

(* ================================================================== *)
(** ** Strings *)
(* ================================================================== *)

Lemma str_eqb_eq (a b : jsstring) : str_eqb a b = true <-> a = b.
Proof.
  revert b; induction a as [|x a IH]; intros [|y b]; simpl;
    try (split; [discriminate | congruence]).
  - tauto.
  - rewrite andb_true_iff, N.eqb_eq, IH. split.
    + intros [-> ->]; reflexivity.
    + intros E; injection E; auto.
Qed.

Lemma str_eqb_refl (a : jsstring) : str_eqb a a = true.
Proof. apply str_eqb_eq; reflexivity. Qed.

Lemma str_eqb_neq (a b : jsstring) : str_eqb a b = false <-> a <> b.
Proof.
  rewrite <- str_eqb_eq. destruct (str_eqb a b); split; congruence.
Qed.

Lemma trimStart_whitespace (s : jsstring) :
  forallb isWhiteSpace s = true -> trimStart s = [].
Proof.
  induction s as [|c s IH]; simpl; [reflexivity|].
  destruct (isWhiteSpace c); simpl; [exact IH | discriminate].
Qed.

Lemma trimStart_nil_inv (s : jsstring) :
  trimStart s = [] -> forallb isWhiteSpace s = true.
Proof.
  induction s as [|c s IH]; simpl; [reflexivity|].
  destruct (isWhiteSpace c); simpl; [exact IH | discriminate].
Qed.

(** A string trims to the empty string exactly when it is empty or made
    of white space only. *)
Lemma trim_nil_iff (s : jsstring) :
  trim s = [] <-> forallb isWhiteSpace s = true.
Proof.
  unfold trim, trimEnd. split.
  - intros H. apply trimStart_nil_inv.
    apply (f_equal (@rev _)) in H. rewrite rev_involutive in H. simpl in H.
    apply trimStart_nil_inv in H. rewrite forallb_forall in H.
    destruct (trimStart s) as [|c t] eqn:E; [reflexivity|].
    assert (W : isWhiteSpace c = true) by (apply H, in_rev; rewrite rev_involutive; left; reflexivity).
    clear H. induction s as [|d s IH]; simpl in E; [discriminate|].
    destruct (isWhiteSpace d) eqn:D; [auto|].
    injection E as -> _. congruence.
  - intros H. rewrite (trimStart_whitespace _ H). reflexivity.
Qed.

Lemma str_truthy_false (s : jsstring) : str_truthy s = false <-> s = [].
Proof. destruct s; simpl; split; congruence. Qed.

Lemma occurs_in_middle (pre needle post : jsstring) :
  occurs_in needle (pre ++ needle ++ post).
Proof. exists pre, post; reflexivity. Qed.

(* ================================================================== *)
(** ** More on strings: what [trim] keeps *)
(* ================================================================== *)

Lemma trimStart_split (s : jsstring) :
  exists pre, s = pre ++ trimStart s /\ forallb isWhiteSpace pre = true.
Proof.
  induction s as [|c s (pre & E & W)]; [exists []; split; reflexivity|].
  simpl. destruct (isWhiteSpace c) eqn:C.
  - exists (c :: pre). simpl. rewrite C, W. split; [f_equal; exact E | reflexivity].
  - exists []. split; reflexivity.
Qed.

Lemma trimStart_head (s : jsstring) (c : code_unit) :
  hd_error (trimStart s) = Some c -> isWhiteSpace c = false.
Proof.
  induction s as [|d s IH]; simpl; [discriminate|].
  destruct (isWhiteSpace d) eqn:D; [exact IH|].
  simpl. intros E; injection E as <-. exact D.
Qed.

Lemma trimEnd_split (s : jsstring) :
  exists post, s = trimEnd s ++ post /\ forallb isWhiteSpace post = true.
Proof.
  unfold trimEnd. destruct (trimStart_split (rev s)) as (pre & E & W).
  exists (rev pre). split.
  - rewrite <- rev_app_distr, <- E, rev_involutive. reflexivity.
  - rewrite forallb_forall in *. intros x I. apply W, in_rev, I.
Qed.

Lemma trimEnd_last (s : jsstring) (c : code_unit) :
  hd_error (rev (trimEnd s)) = Some c -> isWhiteSpace c = false.
Proof.
  unfold trimEnd. rewrite rev_involutive. apply trimStart_head.
Qed.

Lemma trimEnd_head (s : jsstring) (c : code_unit) :
  hd_error s = Some c -> isWhiteSpace c = false ->
  hd_error (trimEnd s) = Some c.
Proof.
  intros H C. destruct (trimEnd_split s) as (post & E & W).
  destruct (trimEnd s) as [|d t].
  - simpl in E. subst post. destruct s as [|c' s]; [discriminate|].
    injection H as ->. simpl in W. rewrite C in W. discriminate.
  - rewrite E in H. exact H.
Qed.

(** [trim] removes white space at both ends and nothing else. *)
Lemma trim_spec (s : jsstring) :
  exists pre post,
    s = pre ++ trim s ++ post
    /\ forallb isWhiteSpace pre = true
    /\ forallb isWhiteSpace post = true
    /\ (forall c, hd_error (trim s) = Some c -> isWhiteSpace c = false)
    /\ (forall c, hd_error (rev (trim s)) = Some c -> isWhiteSpace c = false).
Proof.
  unfold trim.
  destruct (trimStart_split s) as (pre & E & W).
  destruct (trimEnd_split (trimStart s)) as (post & E' & W').
  exists pre, post. split; [rewrite <- E'; exact E|].
  split; [exact W|]. split; [exact W'|]. split.
  - intros c H. destruct (trimStart s) as [|d t] eqn:T; [discriminate H|].
    assert (D : isWhiteSpace d = false)
      by (apply (trimStart_head s); rewrite T; reflexivity).
    rewrite (@trimEnd_head (d :: t) d eq_refl D) in H.
    injection H as <-. exact D.
  - apply trimEnd_last.
Qed.

Lemma trimStart_fixed (s : jsstring) :
  (forall c, hd_error s = Some c -> isWhiteSpace c = false) ->
  trimStart s = s.
Proof.
  destruct s as [|c s]; [reflexivity|]. intros H. simpl.
  rewrite (H c eq_refl). reflexivity.
Qed.

(** Trimming a trimmed string changes nothing. *)
Lemma trim_idempotent (s : jsstring) : trim (trim s) = trim s.
Proof.
  destruct (trim_spec s) as (_ & _ & _ & _ & _ & Hd & Lst).
  unfold trim at 1. rewrite (trimStart_fixed _ Hd).
  unfold trimEnd. rewrite (trimStart_fixed _ Lst). apply rev_involutive.
Qed.

(* ================================================================== *)
(** ** The ledger *)
(* ================================================================== *)

Lemma is_error_status (s : ProvisioningStep) :
  is_error s = true <-> status s = error_status.
Proof. unfold is_error. destruct (status s); simpl; split; congruence. Qed.

Lemma clean_no_error (l : list ProvisioningStep) :
  clean l = true <-> (forall s, In s l -> status s <> error_status).
Proof.
  unfold clean. rewrite forallb_forall. split; intros H s I.
  - rewrite <- is_error_status. specialize (H s I).
    destruct (is_error s); [discriminate | congruence].
  - specialize (H s I). rewrite <- is_error_status in H.
    destruct (is_error s); [congruence | reflexivity].
Qed.

Lemma clean_filter (l : list ProvisioningStep) :
  clean l = true -> filter is_error l = [].
Proof.
  unfold clean. induction l as [|s l IH]; simpl; [reflexivity|].
  rewrite andb_true_iff. intros [E C].
  destruct (is_error s); [discriminate | auto].
Qed.

(** Only the last element of [l ++ [x]] can be an error when [l] is
    clean. *)
Lemma clean_snoc_error_last (l : list ProvisioningStep) x pre s post :
  clean l = true -> l ++ [x] = pre ++ s :: post ->
  status s = error_status -> post = [].
Proof.
  intros C E S.
  destruct post as [|p post] using rev_ind; [reflexivity|]. clear IHpost.
  exfalso. change (pre ++ s :: post ++ [p]) with (pre ++ (s :: post) ++ [p]) in E.
  rewrite app_assoc in E. apply app_inj_tail in E. destruct E as [-> _].
  rewrite clean_no_error in C. apply (C s); [|exact S].
  apply in_or_app; right; left; reflexivity.
Qed.

Lemma clean_snoc_count (l : list ProvisioningStep) x :
  clean l = true -> (List.length (filter is_error (l ++ [x])) <= 1)%nat.
Proof.
  intros C. rewrite filter_app, (clean_filter _ C). simpl.
  destruct (is_error x); simpl; lia.
Qed.

Lemma clean_snoc (l : list ProvisioningStep) x :
  clean l = true -> clean (l ++ [x]) = negb (is_error x).
Proof.
  unfold clean. intros C. rewrite forallb_app, C. simpl.
  apply andb_true_r.
Qed.

Lemma nsArray_nil (l : list jsstring) : nsArray l = [] <-> l = [].
Proof. unfold nsArray. destruct l; simpl; split; congruence. Qed.

Lemma all_but_last (A : Type) (P : A -> bool) (l pre post : list A) (y : A) :
  forallb P (removelast l) = true ->
  l = pre ++ y :: post -> P y = false -> post = [].
Proof.
  intros C E Py.
  destruct post as [|p post _] using rev_ind; [reflexivity|]. exfalso.
  change (pre ++ y :: post ++ [p]) with (pre ++ (y :: post) ++ [p]) in E.
  rewrite app_assoc in E. subst l. rewrite removelast_last in C.
  rewrite forallb_app in C. apply andb_true_iff in C. destruct C as [_ C].
  simpl in C. rewrite Py in C. discriminate.
Qed.

(** Reading a property that is there, and one that is not. *)
Lemma get_prop_first (before after : JsonMap) (key : jsstring) (v : jsval) :
  ~ In key (map fst before) ->
  get_prop (before ++ (key, v) :: after) key = Some v.
Proof.
  induction before as [|[k x] before IH]; simpl; intros N.
  - rewrite str_eqb_refl. reflexivity.
  - destruct (str_eqb k key) eqn:K.
    + apply str_eqb_eq in K. destruct N. left. exact K.
    + apply IH. intros I. apply N. right. exact I.
Qed.

Lemma get_prop_absent (props : JsonMap) (key : jsstring) :
  ~ In key (map fst props) -> get_prop props key = None.
Proof.
  induction props as [|[k x] props IH]; simpl; intros N; [reflexivity|].
  destruct (str_eqb k key) eqn:K.
  - apply str_eqb_eq in K. destruct N. left. exact K.
  - apply IH. intros I. apply N. right. exact I.
Qed.

Lemma availability_truthy (raw : jsval) (props : JsonMap) (v : jsval) :
  firstOrOnlyRecord raw = Some props ->
  get_prop props (lit "avail") = Some v ->
  availability raw = ToBoolean v.
Proof.
  unfold availability, firstOrOnlyRecord, opt_member.
  destruct raw as [| |b0|n|s|[|[| |b0|n|s|l|props0] items]|props0];
    cbn [isArray index0]; try discriminate;
    intros E G; injection E as ->; rewrite G; reflexivity.
Qed.

Lemma availability_absent (raw : jsval) :
  match firstOrOnlyRecord raw with
  | Some props => get_prop props (lit "avail") = None
  | None => True
  end ->
  availability raw = false.
Proof.
  unfold availability, firstOrOnlyRecord, opt_member.
  destruct raw as [| |b0|n|s|[|[| |b0|n|s|l|props0] items]|props0];
    cbn [isArray index0]; try reflexivity; intros G; rewrite G; reflexivity.
Qed.

(* ================================================================== *)
(** ** The stages, one at a time *)
(* ================================================================== *)

Section Stages.

Variable World : Type.
Variable NumberToString : number -> jsstring.

#[local] Abbreviation Tool := (ExternalBoundTool World).
#[local] Abbreviation St := (State World).

Lemma find_by_name (tools : list Tool) (nm : jsstring) (t : Tool) :
  find (fun t => str_eqb (name t) nm) tools = Some t -> name t = nm.
Proof.
  intros H. apply find_some in H. apply str_eqb_eq, H.
Qed.

Lemma find_by_name_none (tools : list Tool) (nm : jsstring) :
  (forall t, In t tools -> name t <> nm) ->
  find (fun t => str_eqb (name t) nm) tools = None.
Proof.
  intros H. destruct (find _ tools) as [t|] eqn:F; [|reflexivity].
  destruct (H t); [eapply find_some, F | eapply find_by_name, F].
Qed.

Lemma find_first (A : Type) (f : A -> bool) (l : list A) (x : A) :
  find f l = Some x ->
  exists pre post,
    l = pre ++ x :: post /\ f x = true /\ forall u, In u pre -> f u = false.
Proof.
  induction l as [|a l IH]; simpl; [discriminate|].
  destruct (f a) eqn:Fa.
  - intros E; injection E as ->. exists [], l. repeat split; [exact Fa|intros u []].
  - intros E. destruct (IH E) as (pre & post & -> & Fx & N).
    exists (a :: pre), post. repeat split; [exact Fx|].
    intros u [<-|I]; [exact Fa | exact (N u I)].
Qed.

Lemma find_hasTool (tools : list Tool) (nm : jsstring) :
  hasTool tools nm
  = match find (fun t => str_eqb (name t) nm) tools with
    | Some _ => true
    | None => false
    end.
Proof.
  unfold hasTool. induction tools as [|t tools IH]; simpl; [reflexivity|].
  destruct (str_eqb (name t) nm); simpl; [reflexivity | exact IH].
Qed.

Lemma attempt_inv (tools : list Tool) nm args (st st' : St) r :
  attempt tools nm args st = (r, st') ->
  exists ev, trace st' = trace st ++ [ev] /\ attempt_event nm args r ev.
Proof.
  unfold attempt, call. destruct (find _ tools) as [t|] eqn:F.
  - destruct (run t args (world st)) as [o w'] eqn:R.
    intros E; injection E as <- <-.
    rewrite (find_by_name _ _ F). eexists; split; [reflexivity | constructor].
  - intros E; injection E as <- <-.
    eexists; split; [reflexivity | constructor].
Qed.

(** An attempt either finds the tool and calls it, or finds no tool,
    throws and leaves the world alone. *)
Lemma attempt_found_inv (tools : list Tool) nm args (st st' : St) r :
  attempt tools nm args st = (r, st') ->
  (hasTool tools nm = true
   /\ trace st' = trace st ++ [EvCall nm args r])
  \/ (hasTool tools nm = false
      /\ r = rejects (ErrorInstance (notFoundMessage nm))
      /\ trace st' = trace st ++ [EvThrow (ErrorInstance (notFoundMessage nm))]
      /\ world st' = world st).
Proof.
  rewrite find_hasTool. unfold attempt, call.
  destruct (find _ tools) as [t|] eqn:F.
  - destruct (run t args (world st)) as [o w'].
    intros E; injection E as <- <-. left.
    rewrite (find_by_name _ _ F). split; reflexivity.
  - intros E; injection E as <- <-. right. repeat split.
Qed.

Lemma attempt_event_response nm args r ev :
  attempt_event nm args r ev -> response ev = r.
Proof. destruct 1; reflexivity. Qed.

Lemma attempt_event_raised nm args r ev :
  attempt_event nm args r ev ->
  raised ev = match settledAs r with
              | Rejected e => Some e
              | Fulfilled _ | Pending => None
              end.
Proof. destruct 1 as [[[v|e|] l]|]; reflexivity. Qed.

Lemma attempt_event_succeeded nm args r ev :
  attempt_event nm args r ev ->
  succeeded ev = match settledAs r with
                 | Fulfilled _ => true
                 | Rejected _ | Pending => false
                 end.
Proof. destruct 1 as [[[v|e|] l]|]; reflexivity. Qed.

Lemma attempt_event_settles nm args r ev :
  attempt_event nm args r ev ->
  settles ev = match settledAs r with
               | Pending => false
               | Fulfilled _ | Rejected _ => true
               end.
Proof. destruct 1 as [[[v|e|] l]|]; reflexivity. Qed.

(** The [catch] clause, case by case. *)
Lemma abort_eq (A : Type) nm dom steps0 created0 (e : thrown) (st : St) :
  @abort World NumberToString A nm dom steps0 created0 e st
  = match errorMessage NumberToString e with
    | Some msg =>
        (Returns (Return {| ok := false; resultDomain := dom;
                            steps := steps0 ++ [errorStep nm msg];
                            created := created0 |}), st)
    | None => (Throws typeError, log (EvThrow typeError) st)
    end.
Proof. unfold abort. destruct (errorMessage _ e); reflexivity. Qed.

(** A stage of the shape [try { findTool; await run; push ok } catch
    { ... }] in terms of its attempt. *)
Lemma try_attempt (A : Type) (tools : list Tool) nm args
    (onOk : jsval -> flow A) (handler : thrown -> M World (flow A)) (st : St) :
  try_catch (tool <- findTool tools nm ;;
             v <- await_run tool args ;;
             ret (onOk v))
            handler st
  = let (r, st') := attempt tools nm args st in
    match settledAs r with
    | Fulfilled v => (Returns (onOk v), st')
    | Rejected e => handler e st'
    | Pending => (Hangs, st')
    end.
Proof.
  unfold try_catch, bind, findTool, attempt, await_run, ret, throw.
  destruct (find _ tools) as [t|]; [|reflexivity].
  destruct (call t args st) as [[[v|e|] l] st']; reflexivity.
Qed.

Lemma try_attempt_sharing (A : Type) (tools : list Tool) nm args shared
    (onOk : jsval -> list jsval -> flow A)
    (handler : thrown -> M World (flow A)) (st : St) :
  try_catch (tool <- findTool tools nm ;;
             settled <- await_run_sharing tool args shared ;;
             let (v, left) := settled in
             ret (onOk v left))
            handler st
  = let (r, st') := attempt tools nm args st in
    match settledAs r with
    | Fulfilled v => (Returns (onOk v (leftIn shared r)), st')
    | Rejected e => handler e st'
    | Pending => (Hangs, st')
    end.
Proof.
  unfold try_catch, bind, findTool, attempt, await_run_sharing, ret, throw.
  destruct (find _ tools) as [t|]; [|reflexivity].
  destruct (call t args st) as [[[v|e|] l] st']; reflexivity.
Qed.

Lemma checkStage_attempt (tools : list Tool) dom steps0 created0 (st : St) :
  checkStage NumberToString tools dom steps0 created0 st
  = let (r, st') :=
        attempt tools (lit "inwx_domain_check") [(lit "domain", JStr dom)] st in
    match settledAs r with
    | Fulfilled raw =>
        (Returns (Next (availability raw,
                        steps0 ++ [okStep (lit "domain_check")
                                     (JObj [(lit "domain", JStr dom);
                                            (lit "available",
                                             JBool (availability raw))])])),
         st')
    | Rejected e =>
        abort NumberToString (lit "domain_check") dom steps0 created0 e st'
    | Pending => (Hangs, st')
    end.
Proof. unfold checkStage. apply try_attempt with (onOk := fun raw => Next _). Qed.

Lemma registerStage_attempt (tools : list Tool) dom params avail ns
    steps0 created0 (st : St) :
  registerStage NumberToString tools dom params avail ns steps0 created0 st
  = if flag (skipRegistration params) then
      (Returns (Next (steps0 ++ [skippedStep (lit "domain_register")
                                   (lit "skipRegistration=true")],
                      setDomainRegistered false created0, ns)), st)
    else if avail then
      let (r, st') :=
          attempt tools (lit "inwx_domain_register")
                  (registerArgs dom params ns) st in
      match settledAs r with
      | Fulfilled v =>
          (Returns (Next (steps0 ++ [okStep (lit "domain_register") v],
                          setDomainRegistered true created0, leftIn ns r)),
           st')
      | Rejected e =>
          abort NumberToString (lit "domain_register") dom steps0 created0 e st'
      | Pending => (Hangs, st')
      end
    else
      (Returns (Next (steps0 ++ [skippedStep (lit "domain_register")
                                   (lit "domain not available")],
                      setDomainRegistered false created0, ns)), st).
Proof.
  unfold registerStage.
  destruct (flag _); [reflexivity|]. destruct avail; [|reflexivity].
  apply try_attempt_sharing with (onOk := fun v left => Next _).
Qed.

Lemma nameserverStage_attempt (tools : list Tool) dom ns
    steps0 created0 (st : St) :
  nameserverStage NumberToString tools dom ns steps0 created0 st
  = match ns with
    | _ :: _ =>
        let (r, st') :=
            attempt tools (lit "inwx_nameserver_set")
                    [(lit "domain", JStr dom); (lit "ns", JArr ns)] st in
        match settledAs r with
        | Fulfilled v =>
            (Returns (Next (steps0 ++ [okStep (lit "nameserver_set") v],
                            setNameserversConfigured true created0)), st')
        | Rejected e =>
            abort NumberToString (lit "nameserver_set") dom steps0 created0 e st'
        | Pending => (Hangs, st')
        end
    | [] =>
        (Returns (Next (steps0 ++ [skippedStep (lit "nameserver_set")
                                     (lit "no nameservers provided")],
                        created0)), st)
    end.
Proof.
  unfold nameserverStage.
  destruct ns as [|n ns]; [reflexivity|].
  change (Nat.ltb 0 (List.length (n :: ns))) with true. cbv iota.
  apply try_attempt with (onOk := fun v => Next _).
Qed.

Lemma hostingStage_attempt (tools : list Tool) dom params
    steps0 created0 (st : St) :
  hostingStage NumberToString tools dom params steps0 created0 st
  = let (r, st') :=
        attempt tools (lit "isp_provision_site") (provisionArgs dom params) st in
    match settledAs r with
    | Fulfilled v =>
        (Returns (Next (steps0 ++ [okStep (lit "isp_provision") v],
                        setHostingProvisioned true v created0)), st')
    | Rejected e =>
        abort NumberToString (lit "isp_provision") dom steps0 created0 e st'
    | Pending => (Hangs, st')
    end.
Proof. unfold hostingStage. apply try_attempt with (onOk := fun v => Next _). Qed.

End Stages.


(* ================================================================== *)
(** ** Whole runs *)
(* ================================================================== *)

(** Symbolic execution of a run, one stage at a time. *)
Ltac run_stage :=
  match goal with
  | |- context [if negb (str_truthy ?d) then _ else _] =>
      let D := fresh "D" in destruct (str_truthy d) eqn:D; cbv [negb]
  | |- context [checkStage _ _ _ _ _ _] => rewrite checkStage_attempt
  | |- context [registerStage _ _ _ _ _ _ _ _ _] => rewrite registerStage_attempt
  | |- context [nameserverStage _ _ _ _ _ _ _] => rewrite nameserverStage_attempt
  | |- context [hostingStage _ _ _ _ _ _ _] => rewrite hostingStage_attempt
  | |- context [abort _ _ _ _ _ _ _] => rewrite abort_eq
  | |- context [match errorMessage ?f ?e with _ => _ end] =>
      let Msg := fresh "Msg" in destruct (errorMessage f e) eqn:Msg
  | |- context [if flag ?x then _ else _] =>
      let F := fresh "F" in destruct (flag x) eqn:F
  | |- context [if availability ?x then _ else _] =>
      let V := fresh "V" in destruct (availability x) eqn:V
  | |- context [match nsArray ?l with _ => _ end] =>
      let N := fresh "N" in destruct (nsArray l) eqn:N
  | |- context [match leftIn ?s ?r with _ => _ end] =>
      let N := fresh "N" in destruct (leftIn s r) eqn:N
  | |- context [attempt ?t ?n ?a ?s0] =>
      let A := fresh "A" in
      destruct (attempt t n a s0) as [[[?v|?e|] ?left] ?st] eqn:A
  end; cbv beta iota delta [settledAs].

Ltac run_workflow :=
  unfold provisionDomainWithHosting, bind, ret; cbv beta iota zeta;
  repeat run_stage.

(** Replace every recorded attempt by the event it left in the trace. *)
Ltac attempt_events :=
  repeat match goal with
  | A : attempt _ _ _ _ = _ |- _ =>
      let ev := fresh "ev" in
      let T := fresh "T" in
      let AE := fresh "AE" in
      apply attempt_inv in A; destruct A as (ev & T & AE)
  end.

(** At a leaf of the symbolic run: keep the runs that return, name the
    result and spell out the trace the attempts left. *)
Ltac finish_run :=
  let E := fresh "E" in
  intros E; try discriminate E; injection E as <- <-;
  attempt_events;
  repeat match goal with
  | T : trace _ = _ |- _ => rewrite T in *; clear T
  end;
  cbn [init trace app] in *.

(** Case analysis on every event: a call, or the [throw] of a lookup. *)
Ltac split_events :=
  repeat match goal with
  | AE : attempt_event _ _ _ _ |- _ => inversion AE; subst; clear AE
  end.

(** Like [attempt_events], keeping whether the tool was found. *)
Ltac attempt_calls :=
  repeat match goal with
  | A : attempt _ _ _ _ = _ |- _ =>
      let Found := fresh "Found" in
      let T := fresh "T" in
      let O := fresh "O" in
      let W := fresh "W" in
      apply attempt_found_inv in A;
      destruct A as [(Found & T) | (Found & O & T & W)];
      [| first [discriminate O | injection O as -> ->]]
  end.

(** [finish_run] with the calls and throws of the trace spelled out. *)
Ltac finish_calls :=
  let E := fresh "E" in
  intros E; try discriminate E; injection E as <- <-;
  attempt_calls;
  repeat match goal with
  | T : trace _ = _ |- _ => rewrite T in *; clear T
  end;
  cbn [init trace app] in *.

(** Evaluate the observers of a trace whose tool names are literal. *)
Ltac eval_calls :=
  repeat match goal with
  | |- context [invoked ?n ?t] =>
      let b := eval vm_compute in (invoked n t) in
      change (invoked n t) with b
  | |- context [hasStep ?n ?s ?l] =>
      let b := eval vm_compute in (hasStep n s l) in
      change (hasStep n s l) with b
  end.

(** Decide the comparisons of literal names in a hypothesis. *)
Ltac eval_names_in H :=
  repeat match type of H with
  | context [str_eqb (lit ?a) (lit ?b)] =>
      let r := eval vm_compute in (str_eqb (lit a) (lit b)) in
      change (str_eqb (lit a) (lit b)) with r in H
  end;
  cbv beta iota in H.

Ltac eval_names :=
  repeat match goal with
  | |- context [str_eqb (lit ?a) (lit ?b)] =>
      let r := eval vm_compute in (str_eqb (lit a) (lit b)) in
      change (str_eqb (lit a) (lit b)) with r
  end;
  cbv beta iota.

(** Split a ledger of at most four steps into its last step and what
    comes before it. *)
Ltac split_last tac :=
  first [ solve [eexists []; eexists; tac]
        | solve [eexists [_]; eexists; tac]
        | solve [eexists [_; _]; eexists; tac]
        | solve [eexists [_; _; _]; eexists; tac] ].

Section Workflow.

Variable World : Type.
Variable NumberToString : number -> jsstring.

#[local] Abbreviation Tool := (ExternalBoundTool World).
#[local] Abbreviation St := (State World).

(** C10: in every result the workflow returns at most one step is an
    error, an error step is the last step of the ledger, and [ok] is
    true exactly when no step is an error. *)
Theorem error_step_unique_and_last
    (inwxTools ispTools : list Tool) (params : ProvisionDomainHostingParams)
    (st : St) (res : ProvisioningResult) (st' : St) :
  provisionDomainWithHosting NumberToString inwxTools ispTools params st
    = (Returns res, st') ->
  (List.length (filter is_error (steps res)) <= 1)%nat
  /\ (forall pre s post,
         steps res = pre ++ s :: post -> status s = error_status ->
         post = [])
  /\ (ok res = true <->
      forall s, In s (steps res) -> status s <> error_status).
Proof.
  assert (shape : forall l b d c,
    l <> [] -> clean (removelast l) = true -> b = clean l ->
    let res := {| ok := b; resultDomain := d; steps := l; created := c |} in
    (List.length (filter is_error (steps res)) <= 1)%nat
    /\ (forall pre s post,
           steps res = pre ++ s :: post -> status s = error_status ->
           post = [])
    /\ (ok res = true <->
        forall s, In s (steps res) -> status s <> error_status)).
  { intros l b d c NE C ->. destruct (exists_last NE) as (l' & x & ->).
    rewrite removelast_last in C. simpl.
    split; [apply clean_snoc_count, C|].
    split; [intros pre s post; apply clean_snoc_error_last, C|].
    rewrite <- clean_no_error. tauto. }
  run_workflow; intros E; try discriminate E; injection E as <- <-;
    (apply shape; [discriminate | reflexivity | reflexivity]).
Qed.

(** C1, as amended: a run in which every call settles and every value
    thrown can be turned into a message returns a result, and every
    failure is inside it: a failed validation is the [validate] step
    with status [error], and an exception raised during the run (by a
    tool lookup or by a tool call) makes [ok] false and is the ledger's
    last step, with status [error] and the message of what was
    thrown. *)
Theorem failures_are_captured
    (inwxTools ispTools : list Tool) (params : ProvisionDomainHostingParams)
    (w : World) (out : completion ProvisioningResult) (st' : St) :
  provisionDomainWithHosting NumberToString inwxTools ispTools params (init w)
    = (out, st') ->
  forallb settles (trace st') = true ->
  forallb (convertible NumberToString) (trace st') = true ->
  exists res,
    out = Returns res
    /\ (trim (domain params) = [] ->
        ok res = false
        /\ outline (steps res) = [(lit "validate", error_status)]
        /\ map (@error) (steps res) = [Some (lit "domain is required")])
    /\ (forall ev e, In ev (trace st') -> raised ev = Some e ->
        ok res = false
        /\ exists pre s msg,
             steps res = pre ++ [s]
             /\ status s = error_status
             /\ error s = Some msg
             /\ errorMessage NumberToString e = Some msg).
Proof.
  run_workflow; intros E; injection E as <- <-; attempt_events;
    cbn [log trace];
    repeat match goal with
    | T : trace _ = _ |- _ => rewrite T in *; clear T
    end;
    cbn [init trace app forallb]; unfold convertible;
    repeat match goal with
    | AE : attempt_event _ _ _ _ |- _ =>
        let R := fresh "R" in
        pose proof (attempt_event_raised AE) as R;
        apply attempt_event_settles in AE;
        cbn [settledAs] in R, AE; rewrite ?R, ?AE
    end;
    repeat match goal with
    | Msg : errorMessage _ _ = _ |- _ => rewrite Msg
    end;
    cbn [andb]; intros Settle Conv; try discriminate;
    eexists; (split; [reflexivity|]);
    (split;
     [ intros Blank; first [ solve [repeat split]
                           | rewrite Blank in D; discriminate ] |]);
    intros ev' e' I Rs; cbn [In] in I;
    repeat match type of I with
    | _ \/ _ => destruct I as [<-|I]
    | False => destruct I
    end;
    try congruence;
    (split; [reflexivity|]);
    match goal with
    | H : raised ?x = Some ?a, Rs : raised ?x = Some ?b |- _ =>
        assert (a = b) by congruence; subst
    end;
    cbv beta iota delta [steps];
    split_last ltac:(eexists; (split; [reflexivity|]); repeat split; assumption).
Qed.

(** C2: a domain that is empty or white space only is rejected at once:
    [ok] is false, the ledger is the single [validate] error step,
    [created] is empty, and the state is returned as it was received: no
    tool of either set was looked up or called. *)
Theorem empty_domain_rejected
    (inwxTools ispTools : list Tool) (params : ProvisionDomainHostingParams)
    (st : St) :
  forallb isWhiteSpace (domain params) = true ->
  exists res,
    provisionDomainWithHosting NumberToString inwxTools ispTools params st
      = (Returns res, st)
    /\ ok res = false
    /\ resultDomain res = []
    /\ outline (steps res) = [(lit "validate", error_status)]
    /\ steps res = [errorStep (lit "validate") (lit "domain is required")]
    /\ created res = emptyCreated.
Proof.
  intros W. apply trim_nil_iff in W.
  unfold provisionDomainWithHosting. rewrite W. simpl.
  eexists. split; [reflexivity|]. repeat split.
Qed.

(** C6: when the registrar tool set has no tool named
    [inwx_domain_check] and the domain is valid, the run returns with
    [ok] false and a ledger of one step: it is named [domain_check], its
    status is [error], it has no data, and its message names the missing
    tool; no tool was called. *)
Theorem missing_check_tool_aborts
    (inwxTools ispTools : list Tool) (params : ProvisionDomainHostingParams)
    (st : St) :
  trim (domain params) <> [] ->
  (forall t, In t inwxTools -> name t <> lit "inwx_domain_check") ->
  exists res st' s msg,
    provisionDomainWithHosting NumberToString inwxTools ispTools params st
      = (Returns res, st')
    /\ ok res = false
    /\ steps res = [s]
    /\ step s = lit "domain_check"
    /\ status s = error_status
    /\ data s = None
    /\ error s = Some msg
    /\ occurs_in (lit "inwx_domain_check") msg
    /\ world st' = world st
    /\ trace st' = trace st ++ [EvThrow (ErrorInstance msg)].
Proof.
  intros V Missing.
  unfold provisionDomainWithHosting, bind, ret.
  destruct (str_truthy (trim (domain params))) eqn:D;
    [|apply str_truthy_false in D; contradiction].
  cbv [negb]. cbv beta iota zeta.
  rewrite checkStage_attempt. unfold attempt.
  rewrite (find_by_name_none _ Missing). cbv beta iota zeta.
  cbn [settledAs rejects]. rewrite abort_eq. cbn [errorMessage].
  do 4 eexists. split; [reflexivity|]. repeat split.
  unfold notFoundMessage.
  rewrite app_assoc. apply occurs_in_middle.
Qed.

(** C7: the check result is accepted as a record or as a sequence.  When
    the check tool fulfils with [raw] and the run returns, the first
    step is [domain_check] with status [ok], and the availability in its
    data is the boolean [avail] of the first/only record of [raw], and
    [false] when that record has no [avail] or when there is no such
    record (an empty sequence, a result that is not a record). *)
Theorem availability_read_from_either_shape
    (inwxTools ispTools : list Tool) (params : ProvisionDomainHostingParams)
    (st : St) (tool : Tool) (raw : jsval) (left : option (list jsval))
    (w' : World) (res : ProvisioningResult) (st' : St) :
  trim (domain params) <> [] ->
  find (fun t => str_eqb (name t) (lit "inwx_domain_check")) inwxTools
    = Some tool ->
  run tool [(lit "domain", JStr (trim (domain params)))] (world st)
    = ({| settledAs := Fulfilled raw; nsLeft := left |}, w') ->
  provisionDomainWithHosting NumberToString inwxTools ispTools params st
    = (Returns res, st') ->
  exists s avail,
    hd_error (steps res) = Some s
    /\ step s = lit "domain_check"
    /\ status s = ok_status
    /\ data s = Some (JObj [(lit "domain", JStr (trim (domain params)));
                            (lit "available", JBool avail)])
    /\ (forall before b after,
          firstOrOnlyRecord raw
            = Some (before ++ (lit "avail", JBool b) :: after) ->
          ~ In (lit "avail") (map fst before) ->
          avail = b)
    /\ (forall props,
          firstOrOnlyRecord raw = Some props ->
          ~ In (lit "avail") (map fst props) ->
          avail = false)
    /\ (firstOrOnlyRecord raw = None -> avail = false).
Proof.
  intros V F R.
  assert (Shapes :
    (forall before b after,
        firstOrOnlyRecord raw
          = Some (before ++ (lit "avail", JBool b) :: after) ->
        ~ In (lit "avail") (map fst before) ->
        availability raw = b)
    /\ (forall props,
          firstOrOnlyRecord raw = Some props ->
          ~ In (lit "avail") (map fst props) ->
          availability raw = false)
    /\ (firstOrOnlyRecord raw = None -> availability raw = false)).
  { repeat split.
    - intros before b after Rec Fresh.
      rewrite (@availability_truthy raw _ (JBool b) Rec
                 (@get_prop_first before after _ _ Fresh)).
      reflexivity.
    - intros props Rec Absent. apply availability_absent.
      rewrite Rec. apply (@get_prop_absent props _ Absent).
    - intros NoRec. apply availability_absent. rewrite NoRec. exact I. }
  unfold provisionDomainWithHosting, bind, ret.
  destruct (str_truthy (trim (domain params))) eqn:D;
    [|apply str_truthy_false in D; contradiction].
  cbv [negb]. cbv beta iota zeta.
  rewrite checkStage_attempt. unfold attempt at 1, call at 1. rewrite F, R.
  cbv beta iota zeta. cbn [settledAs]. repeat run_stage;
    intros E; try discriminate E; injection E as <- <-;
    (do 2 eexists; (split; [reflexivity|]); repeat split; apply Shapes).
Qed.

(** C4: with [skipRegistration] set, a valid domain and a check that
    succeeded, the second step of a returned ledger is named
    [domain_register], has status [skipped] and gives the reason
    [skipRegistration=true], whatever availability the check reported,
    and [inwx_domain_register] is not called. *)
Theorem explicit_skip_never_registers
    (inwxTools ispTools : list Tool) (params : ProvisionDomainHostingParams)
    (w : World) (res : ProvisioningResult) (st' : St) (avail : bool) :
  provisionDomainWithHosting NumberToString inwxTools ispTools params (init w)
    = (Returns res, st') ->
  trim (domain params) <> [] ->
  skipRegistration params = Some true ->
  reportedAvailability (trace st') = Some avail ->
  (exists s,
     nth_error (steps res) 1 = Some s
     /\ step s = lit "domain_register"
     /\ status s = skipped_status
     /\ data s = Some (JObj [(lit "reason", JStr (lit "skipRegistration=true"))])
     /\ error s = None)
  /\ invoked (lit "inwx_domain_register") (trace st') = false.
Proof.
  intros E V Skip Rep. revert E.
  assert (F : flag (skipRegistration params) = true) by (rewrite Skip; reflexivity).
  run_workflow; try congruence; finish_run; split_events;
    try discriminate;
    eval_calls; (split; [eexists; repeat split | reflexivity]).
Qed.

(** C3, as amended: with a valid domain, [skipRegistration] not set, a
    nameserver list that is non-empty and is still non-empty when the
    registration is over, a check that reports the domain available and
    no failure anywhere in the run, [ok] is true and the ledger is the
    four steps [domain_check], [domain_register], [nameserver_set],
    [isp_provision], in this order and all [ok]. *)
Theorem successful_run_four_ok_steps
    (inwxTools ispTools : list Tool) (params : ProvisionDomainHostingParams)
    (w : World) (res : ProvisioningResult) (st' : St) :
  provisionDomainWithHosting NumberToString inwxTools ispTools params (init w)
    = (Returns res, st') ->
  trim (domain params) <> [] ->
  nameservers params <> [] ->
  nameserversAfterRegistration params (trace st') <> [] ->
  flag (skipRegistration params) = false ->
  reportedAvailability (trace st') = Some true ->
  forallb succeeded (trace st') = true ->
  ok res = true
  /\ outline (steps res)
     = [(lit "domain_check", ok_status);
        (lit "domain_register", ok_status);
        (lit "nameserver_set", ok_status);
        (lit "isp_provision", ok_status)].
Proof.
  intros E V NS Left Skip Rep Ok. revert E.
  run_workflow; try congruence; finish_run; split_events;
    cbn [reportedAvailability forallb succeeded settledAs rejects andb] in *;
    rewrite ?str_eqb_refl in *;
    try discriminate; try congruence;
    try (exfalso; apply Left; unfold nameserversAfterRegistration;
         cbn [callReply]; eval_names; assumption);
    split; reflexivity.
Qed.


(** Every run that returns follows [branching]: its outline and its
    [ok] flag are what [branching] computes from the parameters, from
    the nameserver array as the registration stage left it and from the
    responses in the trace. *)
Lemma run_follows_branching
    (inwxTools ispTools : list Tool) (params : ProvisionDomainHostingParams)
    (w : World) (res : ProvisioningResult) (st' : St) :
  provisionDomainWithHosting NumberToString inwxTools ispTools params (init w)
    = (Returns res, st') ->
  branching params (nameserversAfterRegistration params (trace st'))
            (map (fun ev => settledAs (response ev)) (trace st'))
    = Some (outline (steps res), ok res).
Proof.
  run_workflow; finish_run; split_events;
    unfold branching, received, nameserversAfterRegistration;
    cbn [map response callReply settledAs rejects]; eval_names;
    repeat match goal with
    | D : str_truthy _ = _ |- _ => rewrite D; clear D
    | F : flag _ = _ |- _ => rewrite F; clear F
    | N : nsArray _ = _ |- _ => rewrite N; clear N
    | N : leftIn _ _ = _ |- _ => rewrite N; clear N
    | V : availability _ = _ |- _ => rewrite V; clear V
    end;
    cbv [negb]; cbv beta iota;
    try reflexivity;
    repeat match goal with
    | |- context [match ?x with [] => _ | _ :: _ => _ end] => destruct x
    end; reflexivity.
Qed.

(** Two complete lists of responses that agree wherever both are
    defined lead [branching] to the same outcome, when the nameserver
    array is empty in both or in neither. *)
Lemma branching_agree (params : ProvisionDomainHostingParams)
    (ns1 ns2 : list jsval) (rs1 rs2 : list settled) a b :
  branching params ns1 rs1 = Some a ->
  branching params ns2 rs2 = Some b ->
  (ns1 = [] <-> ns2 = []) ->
  (forall i r1 r2,
      nth_error rs1 i = Some r1 -> nth_error rs2 i = Some r2 -> r1 = r2) ->
  a = b.
Proof.
  unfold branching, received.
  destruct (negb (str_truthy (trim (domain params))));
    destruct (flag (skipRegistration params));
    destruct ns1 as [|n1 ns1]; destruct ns2 as [|n2 ns2];
    intros B1 B2 Same H;
    try (destruct Same as [Same _]; specialize (Same eq_refl); discriminate);
    try (destruct Same as [_ Same]; specialize (Same eq_refl); discriminate);
    clear Same; revert B1 B2.
  all: repeat
    (match goal with
     | |- context [match ?l with [] => _ | _ :: _ => _ end] =>
         is_var l; destruct l as [|[?v|?e|] l]
     | |- None = Some _ -> _ => discriminate
     | |- _ -> None = Some _ -> _ => discriminate
     | |- context [if availability ?x then _ else _] =>
         destruct (availability x) eqn:?
     end; cbv beta iota zeta).
  all: try congruence.
  all: try (pose proof (H 0%nat _ _ eq_refl eq_refl));
       try (pose proof (H 1%nat _ _ eq_refl eq_refl));
       try (pose proof (H 2%nat _ _ eq_refl eq_refl));
       try (pose proof (H 3%nat _ _ eq_refl eq_refl));
       clear H; try congruence.
Qed.

(** C8, as amended: the branching is deterministic once the nameserver
    array is counted in.  Two runs on the same parameters, against any
    tool sets and worlds, whose responses agree (the i-th call is
    fulfilled with the same value or rejected with the same error in
    both runs, wherever both have an i-th response) and in which the
    nameserver array is empty after the registration stage in both or in
    neither, return ledgers with the same step names and statuses, and
    the same [ok]. *)
Theorem branching_deterministic
    (inwx1 isp1 inwx2 isp2 : list Tool) (params : ProvisionDomainHostingParams)
    (w1 w2 : World) (res1 res2 : ProvisioningResult) (st1 st2 : St) :
  provisionDomainWithHosting NumberToString inwx1 isp1 params (init w1)
    = (Returns res1, st1) ->
  provisionDomainWithHosting NumberToString inwx2 isp2 params (init w2)
    = (Returns res2, st2) ->
  (forall i ev1 ev2,
      nth_error (trace st1) i = Some ev1 ->
      nth_error (trace st2) i = Some ev2 ->
      settledAs (response ev1) = settledAs (response ev2)) ->
  (nameserversAfterRegistration params (trace st1) = []
   <-> nameserversAfterRegistration params (trace st2) = []) ->
  outline (steps res1) = outline (steps res2) /\ ok res1 = ok res2.
Proof.
  intros E1 E2 H Same.
  apply run_follows_branching in E1. apply run_follows_branching in E2.
  assert (P : (outline (steps res1), ok res1) = (outline (steps res2), ok res2)).
  { eapply branching_agree; [exact E1 | exact E2 | exact Same |].
    intros i r1 r2 N1 N2.
    rewrite nth_error_map in N1, N2.
    destruct (nth_error (trace st1) i) as [ev1|] eqn:T1; [|discriminate].
    destruct (nth_error (trace st2) i) as [ev2|] eqn:T2; [|discriminate].
    injection N1 as <-. injection N2 as <-. exact (H i ev1 ev2 T1 T2). }
  injection P as -> ->. split; reflexivity.
Qed.

End Workflow.

(* ================================================================== *)
(** ** The permission guard *)
(* ================================================================== *)

Section Guard.

Variable World : Type.

#[local] Abbreviation Tool := (ExternalBoundTool World).

Lemma occurs_in_app_r (needle pre hay : jsstring) :
  occurs_in needle hay -> occurs_in needle (pre ++ hay).
Proof.
  intros (a & b & ->). exists (pre ++ a), b. rewrite app_assoc. reflexivity.
Qed.

Lemma occurs_in_app_l (needle hay post : jsstring) :
  occurs_in needle hay -> occurs_in needle (hay ++ post).
Proof.
  intros (a & b & ->). exists a, (b ++ post).
  rewrite <- !app_assoc. reflexivity.
Qed.

Lemma occurs_in_self (s : jsstring) : occurs_in s s.
Proof. exists [], []. rewrite app_nil_r. reflexivity. Qed.

(** A joined list mentions each of its elements. *)
Lemma joinWith_mentions (sep : jsstring) (l : list jsstring) (x : jsstring) :
  In x l -> occurs_in x (joinWith sep l).
Proof.
  induction l as [|y l IH]; [intros []|].
  intros [->|I]; simpl.
  - destruct l; [apply occurs_in_self | apply occurs_in_app_l, occurs_in_self].
  - destruct l as [|z l]; [destruct I|].
    apply occurs_in_app_r, occurs_in_app_r, IH, I.
Qed.

(** A call that violates at least one rule is rejected with the world
    untouched, whatever the wrapped operation would do, and the error
    names the operation and every rule violated. *)
Lemma guard_rejects (policy : PermissionPolicy) (cls : OperationClass)
    (op : Tool) (args : JsonMap) (w : World) (rule : jsstring) :
  In rule (violatedRules policy cls (name op)) ->
  exists msg,
    run (guard policy cls op) args w = (rejects (ErrorInstance msg), w)
    /\ occurs_in rule msg
    /\ occurs_in (name op) msg.
Proof.
  intros I. unfold guard; cbn [run].
  destruct (violatedRules policy cls (name op)) as [|r rs] eqn:V;
    [destruct I|].
  eexists. split; [reflexivity|]. split.
  - apply occurs_in_app_r, occurs_in_app_r, occurs_in_app_r.
    apply joinWith_mentions, I.
  - apply occurs_in_app_r, occurs_in_app_l, occurs_in_self.
Qed.

(** C9: under a read-only policy a write operation is rejected with an
    error naming [readOnly]; under a non-empty allow-list an operation
    whose name is not listed is rejected with an error naming
    [allowedOperations], whatever its classification; a rejected call
    leaves the world as it was, whatever the wrapped operation does; any
    other call is forwarded unchanged. *)
Theorem guard_enforces_policy (policy : PermissionPolicy)
    (cls : OperationClass) (op : Tool) (args : JsonMap) (w : World) :
  (readOnly policy = true -> cls = WriteOperation ->
   exists msg,
     run (guard policy cls op) args w = (rejects (ErrorInstance msg), w)
     /\ occurs_in (lit "readOnly") msg
     /\ occurs_in (name op) msg)
  /\ (allowedOperations policy <> [] ->
      includes (allowedOperations policy) (name op) = false ->
      exists msg,
        run (guard policy cls op) args w = (rejects (ErrorInstance msg), w)
        /\ occurs_in (lit "allowedOperations") msg
        /\ occurs_in (name op) msg)
  /\ ((readOnly policy = false \/ cls = ReadOperation) ->
      (allowedOperations policy = []
       \/ includes (allowedOperations policy) (name op) = true) ->
      run (guard policy cls op) args w = run op args w)
  /\ name (guard policy cls op) = name op.
Proof.
  split; [|split; [|split]].
  - intros RO ->. apply guard_rejects.
    unfold violatedRules. rewrite RO. left; reflexivity.
  - intros NE Out. apply guard_rejects.
    unfold violatedRules. rewrite Out.
    destruct (allowedOperations policy); [contradiction|].
    apply in_or_app; right; left; reflexivity.
  - intros R A. unfold guard; cbn [run].
    assert (V : violatedRules policy cls (name op) = []).
    { unfold violatedRules.
      replace (readOnly policy && isWrite cls) with false
        by (destruct R as [-> | ->]; [|rewrite andb_false_r]; reflexivity).
      destruct A as [-> | ->]; [reflexivity|].
      rewrite andb_false_r. reflexivity. }
    rewrite V. reflexivity.
  - reflexivity.
Qed.

End Guard.

(* ================================================================== *)
(** ** More of what the workflow does *)
(* ================================================================== *)

Section Behaviour.

Variable World : Type.
Variable NumberToString : number -> jsstring.

#[local] Abbreviation Tool := (ExternalBoundTool World).
#[local] Abbreviation St := (State World).

(** X1: [findTool] returns the first tool of the given name, without
    calling anything; when no tool has the name it throws the [Error]
    whose message names the tool asked for. *)
Theorem findTool_first_match_or_error
    (tools : list Tool) (nm : jsstring) (st : St) :
  match findTool tools nm st with
  | (Returns t, st') =>
      st' = st /\ name t = nm
      /\ exists pre post,
           tools = pre ++ t :: post
           /\ forall u, In u pre -> name u <> nm
  | (Throws e, st') =>
      e = ErrorInstance (notFoundMessage nm)
      /\ occurs_in nm (notFoundMessage nm)
      /\ world st' = world st
      /\ trace st' = trace st ++ [EvThrow e]
      /\ forall u, In u tools -> name u <> nm
  | (Hangs, _) => False
  end.
Proof.
  unfold findTool.
  destruct (find (fun t => str_eqb (name t) nm) tools) as [t|] eqn:F.
  - destruct (find_first _ _ F) as (pre & post & E & Ft & N).
    cbn. split; [reflexivity|]. split; [apply str_eqb_eq, Ft|].
    exists pre, post. split; [exact E|].
    intros u I. apply str_eqb_neq, N, I.
  - cbn. split; [reflexivity|]. split.
    + unfold notFoundMessage. rewrite app_assoc. apply occurs_in_middle.
    + repeat split. intros u I. apply str_eqb_neq.
      apply (find_none _ _ F u I).
Qed.

(** X2: when the registration call is rejected, neither
    [inwx_nameserver_set] nor [isp_provision_site] is called.  If the
    rejection can be turned into a message, the run returns with [ok]
    false, [created] still empty and the ledger made of the check step
    and the registration step, which has status [error], no data and
    that message; if it cannot, the run itself throws the [TypeError]
    of the conversion. *)
Theorem registration_failure_aborts
    (inwxTools ispTools : list Tool) (params : ProvisionDomainHostingParams)
    (w : World) (out : completion ProvisioningResult) (st' : St)
    (e : thrown) :
  provisionDomainWithHosting NumberToString inwxTools ispTools params (init w)
    = (out, st') ->
  callOutcome (lit "inwx_domain_register") (trace st') = Some (Rejected e) ->
  invoked (lit "inwx_nameserver_set") (trace st') = false
  /\ invoked (lit "isp_provision_site") (trace st') = false
  /\ match errorMessage NumberToString e with
     | Some msg =>
         exists res s,
           out = Returns res
           /\ ok res = false
           /\ outline (steps res)
              = [(lit "domain_check", ok_status);
                 (lit "domain_register", error_status)]
           /\ nth_error (steps res) 1 = Some s
           /\ step s = lit "domain_register"
           /\ status s = error_status
           /\ data s = None
           /\ error s = Some msg
           /\ created res = emptyCreated
     | None => out = Throws typeError
     end.
Proof.
  intros E C. revert E.
  run_workflow; intros E; injection E as <- <-;
    attempt_calls; cbn [log trace] in *;
    repeat match goal with
    | T : trace _ = _ |- _ => rewrite T in *; clear T
    end;
    cbn [init trace app] in *;
    unfold callOutcome in C; cbn [callReply option_map settledAs rejects] in C;
    eval_names_in C; cbn [option_map settledAs] in C;
    try discriminate C;
    injection C as <-; eval_calls;
    (split; [reflexivity|]); (split; [reflexivity|]);
    rewrite Msg0 in Msg;
    first [ discriminate Msg
          | reflexivity
          | injection Msg as <-; do 2 eexists; repeat split ].
Qed.

(** X3: when the nameserver array is empty once the registration stage
    is over, [inwx_nameserver_set] is never called and
    [nameserversConfigured] stays unset; a ledger that gets to a third
    step has the nameserver step there, with status [skipped] and the
    reason [no nameservers provided], and goes on to a hosting step. *)
Theorem empty_nameservers_skip_to_hosting
    (inwxTools ispTools : list Tool) (params : ProvisionDomainHostingParams)
    (w : World) (res : ProvisioningResult) (st' : St) :
  provisionDomainWithHosting NumberToString inwxTools ispTools params (init w)
    = (Returns res, st') ->
  nameserversAfterRegistration params (trace st') = [] ->
  invoked (lit "inwx_nameserver_set") (trace st') = false
  /\ nameserversConfigured (created res) = None
  /\ (forall s3,
        nth_error (steps res) 2 = Some s3 ->
        step s3 = lit "nameserver_set"
        /\ status s3 = skipped_status
        /\ data s3
           = Some (JObj [(lit "reason", JStr (lit "no nameservers provided"))])
        /\ error s3 = None
        /\ exists s4,
             nth_error (outline (steps res)) 3 = Some (lit "isp_provision", s4)).
Proof.
  intros E NS. revert E.
  run_workflow; finish_calls;
    unfold nameserversAfterRegistration in NS; cbn [callReply] in NS;
    eval_names_in NS; try congruence;
    eval_calls;
    (split; [reflexivity|]); (split; [reflexivity|]);
    intros s3 H; cbn in H; try discriminate H;
    injection H as <-; repeat (split; [reflexivity|]); eexists; reflexivity.
Qed.

(** X4: [inwx_domain_register] is called exactly when [skipRegistration]
    is not set, the check reported the domain available and the
    registrar tool set has the tool; it is then called with the trimmed
    domain, the registration period (1 when none is given), the
    nameserver list and the contacts ([undefined] when none are given). *)
Theorem registration_call
    (inwxTools ispTools : list Tool) (params : ProvisionDomainHostingParams)
    (w : World) (res : ProvisioningResult) (st' : St) :
  provisionDomainWithHosting NumberToString inwxTools ispTools params (init w)
    = (Returns res, st') ->
  (invoked (lit "inwx_domain_register") (trace st') = true <->
   flag (skipRegistration params) = false
   /\ reportedAvailability (trace st') = Some true
   /\ hasTool inwxTools (lit "inwx_domain_register") = true)
  /\ (forall args,
        callArgs (lit "inwx_domain_register") (trace st') = Some args ->
        args
        = [(lit "domain", JStr (trim (domain params)));
           (lit "period",
            JNum (match registrationPeriod params with
                  | Some years => years
                  | None => number_one
                  end));
           (lit "ns", JArr (map JStr (nameservers params)));
           (lit "contacts",
            match contacts params with
            | Some handles => JObj handles
            | None => JUndefined
            end)]).
Proof.
  run_workflow; finish_calls; eval_calls;
    cbn [reportedAvailability settledAs rejects]; rewrite ?str_eqb_refl;
    repeat match goal with
    | H : availability _ = _ |- _ => rewrite H
    | H : hasTool _ _ = _ |- _ => rewrite H
    | H : flag _ = _ |- _ => rewrite H
    end;
    (split;
     [ split; [intros I | intros (I1 & I2 & I3)];
       first [discriminate | repeat split]
     | intros args C; cbn [callArgs] in C; eval_names_in C;
       try discriminate C; injection C as <-;
       unfold registerArgs, nullish, nsArray; reflexivity ]).
Qed.

(** X5: [isp_provision_site] is called with the trimmed domain, the
    client name, email and server address as given, [createMail] and
    [createDb] (true when not given), and [serverId] only when one is
    given: the record has no [serverId] property otherwise. *)
Theorem hosting_call_arguments
    (inwxTools ispTools : list Tool) (params : ProvisionDomainHostingParams)
    (w : World) (res : ProvisioningResult) (st' : St) (args : JsonMap) :
  provisionDomainWithHosting NumberToString inwxTools ispTools params (init w)
    = (Returns res, st') ->
  callArgs (lit "isp_provision_site") (trace st') = Some args ->
  get_prop args (lit "domain") = Some (JStr (trim (domain params)))
  /\ get_prop args (lit "clientName") = Some (JStr (clientName params))
  /\ get_prop args (lit "clientEmail") = Some (JStr (clientEmail params))
  /\ get_prop args (lit "serverIp") = Some (JStr (serverIp params))
  /\ get_prop args (lit "createMail")
     = Some (JBool (match createMail params with
                    | Some b => b
                    | None => true
                    end))
  /\ get_prop args (lit "createDb")
     = Some (JBool (match createDb params with
                    | Some b => b
                    | None => true
                    end))
  /\ get_prop args (lit "serverId") = option_map JNum (serverId params)
  /\ List.length args
     = match serverId params with Some _ => 7%nat | None => 6%nat end.
Proof.
  intros E C. revert E.
  run_workflow; finish_calls;
    cbn [callArgs] in C; eval_names_in C; try discriminate C;
    injection C as <-;
    unfold provisionArgs, nullish; destruct (serverId params);
    repeat split.
Qed.

(** The trace of a finished stage as the trace before it and the events
    after. *)
Ltac events_since_start :=
  repeat match goal with T : trace _ = _ |- _ => rewrite T; clear T end;
  first [ symmetry; apply app_nil_r
        | repeat rewrite <- app_assoc; reflexivity ].

(** X6: the domain of the result is the trimmed domain, and every tool
    the run calls is given that trimmed domain as its [domain]. *)
Theorem trimmed_domain_everywhere
    (inwxTools ispTools : list Tool) (params : ProvisionDomainHostingParams)
    (st : St) (res : ProvisioningResult) (st' : St) :
  provisionDomainWithHosting NumberToString inwxTools ispTools params st
    = (Returns res, st') ->
  exists evs,
    trace st' = trace st ++ evs
    /\ resultDomain res = trim (domain params)
    /\ (forall nm args out,
          In (EvCall nm args out) evs ->
          get_prop args (lit "domain") = Some (JStr (trim (domain params)))).
Proof.
  run_workflow; intros E; try discriminate E; injection E as <- <-;
    attempt_calls;
    eexists; (split; [events_since_start|]);
    (split;
     [ first [ reflexivity
             | symmetry; apply str_truthy_false; assumption ] |]);
    intros nm args out I; cbn in I;
    repeat match type of I with
    | _ \/ _ => destruct I as [I|I]
    | False => destruct I
    end;
    first [ discriminate I
          | injection I as <- <- <-;
            unfold registerArgs, provisionArgs; cbn [get_prop app];
            rewrite str_eqb_refl; reflexivity ].
Qed.

Lemma result_domain_trimmed
    (inwxTools ispTools : list Tool) (params : ProvisionDomainHostingParams)
    (st : St) (res : ProvisioningResult) (st' : St) :
  provisionDomainWithHosting NumberToString inwxTools ispTools params st
    = (Returns res, st') ->
  resultDomain res = trim (domain params).
Proof.
  run_workflow; intros E; try discriminate E; injection E as <- <-;
    first [ reflexivity | symmetry; apply str_truthy_false; assumption ].
Qed.

(** X7: the domain of the result is the given domain with the white
    space at its two ends removed, and nothing else: it neither starts
    nor ends with white space. *)
Theorem result_domain_strips_surrounding_space
    (inwxTools ispTools : list Tool) (params : ProvisionDomainHostingParams)
    (st : St) (res : ProvisioningResult) (st' : St) :
  provisionDomainWithHosting NumberToString inwxTools ispTools params st
    = (Returns res, st') ->
  exists pre post,
    domain params = pre ++ resultDomain res ++ post
    /\ forallb isWhiteSpace pre = true
    /\ forallb isWhiteSpace post = true
    /\ (forall c, hd_error (resultDomain res) = Some c ->
                  isWhiteSpace c = false)
    /\ (forall c, hd_error (rev (resultDomain res)) = Some c ->
                  isWhiteSpace c = false).
Proof.
  intros E. destruct (trim_spec (domain params)) as (pre & post & Spec).
  exists pre, post. rewrite (result_domain_trimmed _ _ _ _ E). exact Spec.
Qed.

(** X8: the ledger of a blank domain is the [validate] error alone; any
    other ledger is a non-empty initial part of [domain_check],
    [domain_register], [nameserver_set], [isp_provision], and it is all
    four of them when [ok] is true. *)
Theorem ledger_follows_stage_order
    (inwxTools ispTools : list Tool) (params : ProvisionDomainHostingParams)
    (st : St) (res : ProvisioningResult) (st' : St) :
  provisionDomainWithHosting NumberToString inwxTools ispTools params st
    = (Returns res, st') ->
  (if str_truthy (trim (domain params))
   then map (@step) (steps res)
        = firstn (List.length (steps res)) stageNames
        /\ (1 <= List.length (steps res) <= 4)%nat
   else outline (steps res) = [(lit "validate", error_status)])
  /\ (ok res = true -> List.length (steps res) = 4%nat).
Proof.
  run_workflow; intros E; try discriminate E; injection E as <- <-; cbn;
    (split; [ first [ reflexivity | split; [reflexivity | lia] ]
            | first [ reflexivity | discriminate ] ]).
Qed.


(** X10: nothing runs after a failure.  The event at which an exception
    is raised is the last event of the run, a run has at most four
    events, and for a valid domain [ok] is true exactly when no event of
    the run raised an exception. *)
Theorem failure_ends_the_run
    (inwxTools ispTools : list Tool) (params : ProvisionDomainHostingParams)
    (st : St) (res : ProvisioningResult) (st' : St) :
  provisionDomainWithHosting NumberToString inwxTools ispTools params st
    = (Returns res, st') ->
  exists evs,
    trace st' = trace st ++ evs
    /\ (forall pre ev post,
          evs = pre ++ ev :: post -> succeeded ev = false -> post = [])
    /\ (List.length evs <= 4)%nat
    /\ (trim (domain params) <> [] -> ok res = forallb succeeded evs).
Proof.
  run_workflow; intros E; try discriminate E; injection E as <- <-;
    attempt_events;
    repeat match goal with
    | AE : attempt_event _ _ _ _ |- _ =>
        apply attempt_event_succeeded in AE; cbn [settledAs] in AE
    end;
    eexists; (split; [events_since_start|]);
    cbn [app];
    (split;
     [ intros pre ev' post; apply all_but_last; cbn [removelast forallb];
       repeat match goal with
       | H : succeeded _ = _ |- _ => rewrite H
       end; reflexivity |]);
    (split; [cbn; lia|]);
    intros Valid; cbn [ok forallb];
    repeat match goal with
    | H : succeeded _ = _ |- _ => rewrite H
    end;
    first [ reflexivity
          | exfalso; apply Valid, str_truthy_false; assumption ].
Qed.

(** X11: the tools a run calls are some of [inwx_domain_check],
    [inwx_domain_register], [inwx_nameserver_set], [isp_provision_site],
    in this order: no tool is called twice, none out of turn, and no
    tool of another name is ever called. *)
Theorem calls_follow_stage_order
    (inwxTools ispTools : list Tool) (params : ProvisionDomainHostingParams)
    (st : St) (res : ProvisioningResult) (st' : St) :
  provisionDomainWithHosting NumberToString inwxTools ispTools params st
    = (Returns res, st') ->
  exists evs,
    trace st' = trace st ++ evs
    /\ isSubsequence (callNames evs) workflowTools = true.
Proof.
  run_workflow; intros E; try discriminate E; injection E as <- <-;
    attempt_calls;
    eexists; (split; [events_since_start|]);
    vm_compute; reflexivity.
Qed.

(** X12: a run succeeds only with the tools of the right set.  When
    [ok] is true the registrar set has [inwx_domain_check], the hosting
    set has [isp_provision_site], the registrar set has
    [inwx_nameserver_set] if the nameserver array is not empty once the
    registration stage is over, and it has [inwx_domain_register] if a
    registration was made. *)
Theorem success_needs_the_tools
    (inwxTools ispTools : list Tool) (params : ProvisionDomainHostingParams)
    (w : World) (res : ProvisioningResult) (st' : St) :
  provisionDomainWithHosting NumberToString inwxTools ispTools params (init w)
    = (Returns res, st') ->
  ok res = true ->
  hasTool inwxTools (lit "inwx_domain_check") = true
  /\ hasTool ispTools (lit "isp_provision_site") = true
  /\ (nameserversAfterRegistration params (trace st') <> [] ->
      hasTool inwxTools (lit "inwx_nameserver_set") = true)
  /\ (domainRegistered (created res) = Some true ->
      hasTool inwxTools (lit "inwx_domain_register") = true).
Proof.
  run_workflow; finish_calls; intros Ok;
    try discriminate Ok;
    unfold nameserversAfterRegistration; cbn [callReply]; eval_names;
    repeat split; try assumption; intros H;
    first [ assumption | congruence | discriminate H ].
Qed.

(** X13: every step of every ledger has the shape the type promises:
    an error step carries a message and no data, an [ok] or [skipped]
    step carries data and no message, and the data of a skipped step is
    a record with the single property [reason]. *)
Theorem steps_are_well_shaped
    (inwxTools ispTools : list Tool) (params : ProvisionDomainHostingParams)
    (st : St) (res : ProvisioningResult) (st' : St) :
  provisionDomainWithHosting NumberToString inwxTools ispTools params st
    = (Returns res, st') ->
  forallb stepShape (steps res) = true.
Proof.
  run_workflow; intros E; try discriminate E; injection E as <- <-;
    vm_compute; reflexivity.
Qed.

(** X14: [avail] is read by truthiness.  When registration is not
    skipped on request and the first/only record of the check result has
    an [avail] of any value, the registration step is [skipped] exactly
    when that value is falsy, and otherwise the register tool is called
    if the registrar set has it. *)
Theorem registration_follows_truthiness
    (inwxTools ispTools : list Tool) (params : ProvisionDomainHostingParams)
    (w : World) (res : ProvisioningResult) (st' : St)
    (raw : jsval) (props : JsonMap) (v : jsval) :
  provisionDomainWithHosting NumberToString inwxTools ispTools params (init w)
    = (Returns res, st') ->
  flag (skipRegistration params) = false ->
  callOutcome (lit "inwx_domain_check") (trace st') = Some (Fulfilled raw) ->
  firstOrOnlyRecord raw = Some props ->
  get_prop props (lit "avail") = Some v ->
  hasStep (lit "domain_register") skipped_status (steps res)
    = negb (ToBoolean v)
  /\ invoked (lit "inwx_domain_register") (trace st')
     = ToBoolean v && hasTool inwxTools (lit "inwx_domain_register").
Proof.
  intros E Skip C R G. revert E.
  run_workflow; try congruence; finish_calls;
    unfold callOutcome in C;
    cbn [callReply option_map settledAs rejects] in C; eval_names_in C;
    cbn [option_map settledAs] in C; try discriminate C;
    injection C as ->;
    rewrite <- (availability_truthy _ R G);
    repeat match goal with
    | H : availability _ = _ |- _ => rewrite H
    | H : hasTool _ _ = _ |- _ => rewrite H
    end;
    eval_calls; split; reflexivity.
Qed.

(** X16: trimming is idempotent across runs.  A run on parameters whose
    domain is the domain of an earlier result, against any tool sets,
    returns that same domain whenever it returns. *)
Theorem result_domain_is_stable
    (inwx1 isp1 inwx2 isp2 : list Tool)
    (params1 params2 : ProvisionDomainHostingParams) (st1 st2 : St)
    (res1 res2 : ProvisioningResult) (st1' st2' : St) :
  provisionDomainWithHosting NumberToString inwx1 isp1 params1 st1
    = (Returns res1, st1') ->
  domain params2 = resultDomain res1 ->
  provisionDomainWithHosting NumberToString inwx2 isp2 params2 st2
    = (Returns res2, st2') ->
  resultDomain res2 = resultDomain res1.
Proof.
  intros E1 D2 E2.
  rewrite (result_domain_trimmed _ _ _ _ E2), D2,
          (result_domain_trimmed _ _ _ _ E1).
  apply trim_idempotent.
Qed.

(** X17: the [findTool] of the integration tests and the [findTool] of
    the workflow agree: on every tool set and name they return the same
    tool, or they both throw, each with a message that names the tool
    asked for. *)
Theorem findTool_helpers_agree
    (tools : list Tool) (nm : jsstring) (st : St) :
  match findTool tools nm st, findToolOte tools nm st with
  | (Returns t, st1), (Returns t', st2) => t = t' /\ st1 = st /\ st2 = st
  | (Throws e, _), (Throws e', _) =>
      (exists msg, errorMessage NumberToString e = Some msg
                   /\ occurs_in nm msg)
      /\ (exists msg', errorMessage NumberToString e' = Some msg'
                       /\ occurs_in nm msg')
  | _, _ => False
  end.
Proof.
  unfold findTool, findToolOte.
  destruct (find (fun t => str_eqb (name t) nm) tools) as [t|]; cbn.
  - repeat split.
  - split; eexists; (split; [reflexivity|]).
    + unfold notFoundMessage. rewrite app_assoc. apply occurs_in_middle.
    + apply occurs_in_middle.
Qed.

(** X18: [inwx_domain_check] is called with the trimmed domain and
    nothing else; [inwx_nameserver_set] is called only when the
    nameserver array is not empty once the registration stage is over,
    with the trimmed domain and the array as it is then. *)
Theorem check_and_nameserver_call_arguments
    (inwxTools ispTools : list Tool) (params : ProvisionDomainHostingParams)
    (w : World) (res : ProvisioningResult) (st' : St) :
  provisionDomainWithHosting NumberToString inwxTools ispTools params (init w)
    = (Returns res, st') ->
  (forall args,
      callArgs (lit "inwx_domain_check") (trace st') = Some args ->
      args = [(lit "domain", JStr (trim (domain params)))])
  /\ (forall args,
        callArgs (lit "inwx_nameserver_set") (trace st') = Some args ->
        nameserversAfterRegistration params (trace st') <> []
        /\ args = [(lit "domain", JStr (trim (domain params)));
                   (lit "ns",
                    JArr (nameserversAfterRegistration params (trace st')))]).
Proof.
  intros E. revert E.
  run_workflow; finish_calls;
    unfold nameserversAfterRegistration; cbn [callReply]; eval_names;
    rewrite ?N;
    (split; intros args C; cbn [callArgs] in C; eval_names_in C;
     try discriminate C; injection C as <-);
    first [ reflexivity
          | split; [discriminate | reflexivity] ].
Qed.

End Behaviour.

(* ================================================================== *)
(** ** The scenarios of [tests/provisioning.test.ts] *)
(* ================================================================== *)

Module Scenarios.
Import Fixtures MoreFixtures.

Example full_workflow :
  digest (provision inwxToolset ispToolset baseParams)
  = Some (true,
          [(lit "domain_check", ok_status); (lit "domain_register", ok_status);
           (lit "nameserver_set", ok_status); (lit "isp_provision", ok_status)],
          [None; None; None; None], allCreated ispResult, 4%nat).
Proof. reflexivity. Qed.

Example taken_domain :
  digest (provision inwxToolsetTaken ispToolset
            (withDomain (lit "taken.de") baseParams))
  = Some (true,
          [(lit "domain_check", ok_status);
           (lit "domain_register", skipped_status);
           (lit "nameserver_set", ok_status); (lit "isp_provision", ok_status)],
          [None; None; None; None],
          {| domainRegistered := Some false;
             nameserversConfigured := Some true;
             hostingProvisioned := Some true;
             ispProvisionResult := Some ispResult |}, 3%nat).
Proof. reflexivity. Qed.

Example check_fails :
  digest (provision inwxCheckFails ispToolset baseParams)
  = Some (false, [(lit "domain_check", error_status)],
          [Some (lit "API timeout")], emptyCreated, 1%nat).
Proof. reflexivity. Qed.

Example registration_fails :
  digest (provision inwxRegisterFails ispToolset baseParams)
  = Some (false,
          [(lit "domain_check", ok_status); (lit "domain_register", error_status)],
          [None; Some (lit "Insufficient balance")], emptyCreated, 2%nat).
Proof. reflexivity. Qed.

Example hosting_fails :
  digest (provision inwxToolset
            [failingTool (lit "isp_provision_site") (lit "Connection refused")]
            baseParams)
  = Some (false,
          [(lit "domain_check", ok_status); (lit "domain_register", ok_status);
           (lit "nameserver_set", ok_status); (lit "isp_provision", error_status)],
          [None; None; None; Some (lit "Connection refused")],
          {| domainRegistered := Some true;
             nameserversConfigured := Some true;
             hostingProvisioned := None; ispProvisionResult := None |},
          4%nat).
Proof. reflexivity. Qed.

Example empty_nameservers :
  digest (provision inwxToolset ispToolset noNameserverParams)
  = Some (true,
          [(lit "domain_check", ok_status); (lit "domain_register", ok_status);
           (lit "nameserver_set", skipped_status);
           (lit "isp_provision", ok_status)],
          [None; None; None; None],
          {| domainRegistered := Some true;
             nameserversConfigured := None;
             hostingProvisioned := Some true;
             ispProvisionResult := Some ispResult |}, 3%nat).
Proof. reflexivity. Qed.

(** A thrown value that is not an [Error] is reported through
    [String(err)]. *)
Example thrown_string :
  digest (provision
            [throwingTool (lit "inwx_domain_check") (JStr (lit "boom"))]
            ispToolset baseParams)
  = Some (false, [(lit "domain_check", error_status)],
          [Some (lit "boom")], emptyCreated, 1%nat).
Proof. reflexivity. Qed.

(** A thrown record without a [toString] of its own is reported as
    [[object Object]]. *)
Example thrown_record :
  digest (provision
            [throwingTool (lit "inwx_domain_check")
               (JObj [(lit "code", JNum number_one)])]
            ispToolset baseParams)
  = Some (false, [(lit "domain_check", error_status)],
          [Some (lit "[object Object]")], emptyCreated, 1%nat).
Proof. reflexivity. Qed.

(** A thrown [{ toString: 1 }] makes [String(err)] throw inside the
    [catch] clause: the run ends in that [TypeError], after the one
    call. *)
Example thrown_unconvertible :
  provision [throwingTool (lit "inwx_domain_check") noString]
            ispToolset baseParams
  = (Throws typeError,
     {| world := 1%nat;
        trace := [EvCall (lit "inwx_domain_check")
                    [(lit "domain", JStr (lit "example.com"))]
                    (rejects (ThrownValue noString));
                  EvThrow typeError] |}).
Proof. reflexivity. Qed.

(** The same in a later stage: the steps pushed so far are lost with
    the result. *)
Example thrown_unconvertible_at_hosting :
  fst (provision inwxToolset
         [throwingTool (lit "isp_provision_site") noString] baseParams)
  = Throws typeError.
Proof. reflexivity. Qed.

(** A call that never settles leaves the run waiting. *)
Example pending_call :
  fst (provision [checkTool true; pendingTool (lit "inwx_domain_register")]
         ispToolset baseParams)
  = Hangs.
Proof. reflexivity. Qed.

(** A register tool that empties the array it is handed: the
    nameserver stage finds nothing to set. *)
Example register_empties_nameservers :
  digest (provision inwxEmptiesNameservers ispToolset baseParams)
  = Some (true,
          [(lit "domain_check", ok_status); (lit "domain_register", ok_status);
           (lit "nameserver_set", skipped_status);
           (lit "isp_provision", ok_status)],
          [None; None; None; None],
          {| domainRegistered := Some true;
             nameserversConfigured := None;
             hostingProvisioned := Some true;
             ispProvisionResult := Some ispResult |}, 3%nat).
Proof. reflexivity. Qed.

(** A register tool that fills the empty array it is handed: the
    nameserver tool is asked for, and missed. *)
Example register_fills_nameservers :
  digest (provision inwxFillsNameservers ispToolset noNameserverParams)
  = Some (false,
          [(lit "domain_check", ok_status); (lit "domain_register", ok_status);
           (lit "nameserver_set", error_status)],
          [None; None;
           Some (notFoundMessage (lit "inwx_nameserver_set"))],
          {| domainRegistered := Some true;
             nameserversConfigured := None;
             hostingProvisioned := None;
             ispProvisionResult := None |}, 2%nat).
Proof. reflexivity. Qed.

Example trim_strips_both_ends :
  trim (lit "  example.com ") = lit "example.com".
Proof. reflexivity. Qed.

End Scenarios.

(* ================================================================== *)
(** ** The statements at concrete inputs *)
(* ================================================================== *)

Module Witnesses.
Import Fixtures MoreFixtures.

(** C1 (amended) at the failing check of the tests: the call settles,
    its error has a message, and the run returns with that message in
    the last step. *)
Lemma failures_are_captured_witness :
  exists res,
    fst (provision inwxCheckFails ispToolset baseParams) = Returns res
    /\ ok res = false
    /\ exists pre s,
         steps res = pre ++ [s]
         /\ status s = error_status
         /\ error s = Some (lit "API timeout").
Proof.
  destruct (@failures_are_captured World numberToString
              inwxCheckFails ispToolset baseParams 0%nat _ _
              eq_refl eq_refl eq_refl)
    as (res & E & _ & Captured).
  exists res. split; [exact E|].
  destruct (Captured
              (EvCall (lit "inwx_domain_check")
                 [(lit "domain", JStr (lit "example.com"))]
                 (rejects (ErrorInstance (lit "API timeout"))))
              (ErrorInstance (lit "API timeout"))
              (or_introl eq_refl) eq_refl)
    as (Ok & pre & s & msg & L & St & Er & Msg).
  split; [exact Ok|]. exists pre, s.
  split; [exact L|]. split; [exact St|].
  rewrite Er. symmetry. exact Msg.
Defined.

(** C1 as stated fails in two ways.  A check tool that rejects with
    [{ toString: 1 }] makes [String(err)] throw in the [catch] clause,
    and the run ends in that [TypeError] instead of a result; a tool
    whose promise never settles leaves the run without a result for
    ever. *)
Lemma run_can_throw_or_hang :
  fst (provision [throwingTool (lit "inwx_domain_check") noString]
         ispToolset baseParams)
  = Throws typeError
  /\ fst (provision [pendingTool (lit "inwx_domain_check")]
            ispToolset baseParams)
     = Hangs
  /\ ~ (exists res,
          fst (provision [throwingTool (lit "inwx_domain_check") noString]
                 ispToolset baseParams)
          = Returns res)
  /\ ~ (exists res,
          fst (provision [pendingTool (lit "inwx_domain_check")]
                 ispToolset baseParams)
          = Returns res).
Proof.
  split; [reflexivity|]. split; [reflexivity|].
  split; intros [res Bad]; vm_compute in Bad; discriminate Bad.
Qed.

(** C2 at [provisionDomainWithHosting([], [], baseParams({domain: "  "}))]. *)
Lemma empty_domain_rejected_witness :
  exists res,
    provision [] [] blankParams = (Returns res, init 0%nat)
    /\ ok res = false
    /\ resultDomain res = []
    /\ outline (steps res) = [(lit "validate", error_status)]
    /\ steps res = [errorStep (lit "validate") (lit "domain is required")]
    /\ created res = emptyCreated.
Proof.
  apply (@empty_domain_rejected World numberToString [] [] blankParams
           (init 0%nat)).
  reflexivity.
Defined.

(** C6 at [provisionDomainWithHosting([], ispToolset(), baseParams())]. *)
Lemma missing_check_tool_aborts_witness :
  exists res st' s msg,
    provision [] ispToolset baseParams = (Returns res, st')
    /\ ok res = false
    /\ steps res = [s]
    /\ step s = lit "domain_check"
    /\ status s = error_status
    /\ data s = None
    /\ error s = Some msg
    /\ occurs_in (lit "inwx_domain_check") msg
    /\ world st' = 0%nat
    /\ trace st' = [EvThrow (ErrorInstance msg)].
Proof.
  apply (@missing_check_tool_aborts World numberToString [] ispToolset
           baseParams (init 0%nat)).
  - vm_compute. discriminate.
  - simpl. tauto.
Defined.

(** C7 at the two shapes: the mock check result
    [[{ domain, avail: true }]], a sequence, and the bare record
    [{ domain, avail: true }].  Both runs record the availability
    [true]. *)
Lemma availability_read_from_either_shape_witness :
  (exists res st' s,
     provision inwxToolset ispToolset baseParams = (Returns res, st')
     /\ hd_error (steps res) = Some s
     /\ step s = lit "domain_check"
     /\ status s = ok_status
     /\ data s = Some (JObj [(lit "domain", JStr (lit "example.com"));
                             (lit "available", JBool true)]))
  /\ (exists res st' s,
        provision (inwxBareRecord true) ispToolset baseParams
          = (Returns res, st')
        /\ hd_error (steps res) = Some s
        /\ step s = lit "domain_check"
        /\ status s = ok_status
        /\ data s = Some (JObj [(lit "domain", JStr (lit "example.com"));
                                (lit "available", JBool true)])).
Proof.
  assert (Fresh : ~ In (lit "avail")
                      (map fst [(lit "domain", JStr (lit "example.com"))])).
  { intros [H|[]]. vm_compute in H. discriminate H. }
  split.
  - destruct (@availability_read_from_either_shape World numberToString
                inwxToolset ispToolset baseParams (init 0%nat) (checkTool true)
                (checkResult (lit "example.com") true) None 1%nat _ _
                ltac:(vm_compute; discriminate) eq_refl eq_refl eq_refl)
      as (s & avail & Hd & Nm & St & Dt & Read & _ & _).
    do 2 eexists. exists s. split; [reflexivity|].
    split; [exact Hd|]. split; [exact Nm|]. split; [exact St|].
    rewrite Dt.
    rewrite (Read [(lit "domain", JStr (lit "example.com"))] true []
               eq_refl Fresh).
    reflexivity.
  - destruct (@availability_read_from_either_shape World numberToString
                (inwxBareRecord true) ispToolset baseParams (init 0%nat)
                (bareCheckTool true)
                (JObj [(lit "domain", JStr (lit "example.com"));
                       (lit "avail", JBool true)]) None 1%nat _ _
                ltac:(vm_compute; discriminate) eq_refl eq_refl eq_refl)
      as (s & avail & Hd & Nm & St & Dt & Read & _ & _).
    do 2 eexists. exists s. split; [reflexivity|].
    split; [exact Hd|]. split; [exact Nm|]. split; [exact St|].
    rewrite Dt.
    rewrite (Read [(lit "domain", JStr (lit "example.com"))] true []
               eq_refl Fresh).
    reflexivity.
Defined.

(** C4 at [baseParams({ skipRegistration: true })], where the check
    reports the domain available. *)
Lemma explicit_skip_never_registers_witness :
  exists res st',
    provision inwxToolset ispToolset skipParams = (Returns res, st')
    /\ (exists s,
          nth_error (steps res) 1 = Some s
          /\ step s = lit "domain_register"
          /\ status s = skipped_status
          /\ data s
             = Some (JObj [(lit "reason", JStr (lit "skipRegistration=true"))])
          /\ error s = None)
    /\ invoked (lit "inwx_domain_register") (trace st') = false.
Proof.
  do 2 eexists. split; [reflexivity|].
  eapply (@explicit_skip_never_registers World numberToString
           inwxToolset ispToolset skipParams 0%nat _ _ true).
  - reflexivity.
  - vm_compute. discriminate.
  - reflexivity.
  - reflexivity.
Defined.

(** C3 (amended) at the full run of the first test. *)
Lemma successful_run_four_ok_steps_witness :
  exists res st',
    provision inwxToolset ispToolset baseParams = (Returns res, st')
    /\ ok res = true
    /\ outline (steps res)
       = [(lit "domain_check", ok_status);
          (lit "domain_register", ok_status);
          (lit "nameserver_set", ok_status);
          (lit "isp_provision", ok_status)].
Proof.
  do 2 eexists. split; [reflexivity|].
  eapply (@successful_run_four_ok_steps World numberToString
           inwxToolset ispToolset baseParams 0%nat).
  - reflexivity.
  - vm_compute. discriminate.
  - vm_compute. discriminate.
  - vm_compute. discriminate.
  - reflexivity.
  - reflexivity.
  - reflexivity.
Defined.

(** C3 as stated fails in two ways.  When registration is skipped on
    request, the domain is valid, the nameserver list is non-empty, the
    check reports the domain available and nothing fails, yet the
    registration step is [skipped], not [ok].  And when the register
    tool empties the nameserver array it is handed, all that holds
    again with registration not skipped, yet the nameserver step is
    [skipped], not [ok]. *)
Lemma available_domain_not_all_ok :
  (exists res st',
     provision inwxToolset ispToolset skipParams = (Returns res, st')
     /\ trim (domain skipParams) <> []
     /\ nameservers skipParams <> []
     /\ reportedAvailability (trace st') = Some true
     /\ forallb succeeded (trace st') = true
     /\ outline (steps res)
        = [(lit "domain_check", ok_status);
           (lit "domain_register", skipped_status);
           (lit "nameserver_set", ok_status);
           (lit "isp_provision", ok_status)]
     /\ ~ (ok res = true
           /\ outline (steps res)
              = [(lit "domain_check", ok_status);
                 (lit "domain_register", ok_status);
                 (lit "nameserver_set", ok_status);
                 (lit "isp_provision", ok_status)]))
  /\ (exists res st',
        provision inwxEmptiesNameservers ispToolset baseParams
          = (Returns res, st')
        /\ trim (domain baseParams) <> []
        /\ nameservers baseParams <> []
        /\ flag (skipRegistration baseParams) = false
        /\ reportedAvailability (trace st') = Some true
        /\ forallb succeeded (trace st') = true
        /\ outline (steps res)
           = [(lit "domain_check", ok_status);
              (lit "domain_register", ok_status);
              (lit "nameserver_set", skipped_status);
              (lit "isp_provision", ok_status)]
        /\ ~ (ok res = true
              /\ outline (steps res)
                 = [(lit "domain_check", ok_status);
                    (lit "domain_register", ok_status);
                    (lit "nameserver_set", ok_status);
                    (lit "isp_provision", ok_status)])).
Proof.
  split.
  - do 2 eexists. split; [reflexivity|].
    repeat split; try reflexivity; try (vm_compute; discriminate).
    intros [_ Bad]. vm_compute in Bad. discriminate.
  - do 2 eexists. split; [reflexivity|].
    repeat split; try reflexivity; try (vm_compute; discriminate).
    intros [_ Bad]. vm_compute in Bad. discriminate.
Qed.



(** C8 (amended) at two runs of the first test against different tool
    sets and worlds. *)
Lemma branching_deterministic_witness :
  exists res1 st1 res2 st2,
    provision inwxToolset ispToolset baseParams = (Returns res1, st1)
    /\ provisionDomainWithHosting numberToString inwxToolsetB ispToolset
         baseParams (init 7%nat) = (Returns res2, st2)
    /\ world st1 <> world st2
    /\ outline (steps res1) = outline (steps res2)
    /\ ok res1 = ok res2.
Proof.
  do 4 eexists. split; [reflexivity|]. split; [reflexivity|].
  split; [vm_compute; discriminate|].
  eapply (@branching_deterministic World numberToString
           inwxToolset ispToolset inwxToolsetB ispToolset baseParams
           0%nat 7%nat).
  - reflexivity.
  - reflexivity.
  - intros [|[|[|[|[|i]]]]] ev1 ev2 E1 E2; vm_compute in E1, E2;
      try discriminate;
      injection E1 as <-; injection E2 as <-; reflexivity.
  - split; intros Bad; vm_compute in Bad; discriminate Bad.
Defined.

(** C8 as stated fails: two runs on the same parameters in which every
    operation gives the same response, the i-th response of one run
    being the i-th response of the other wherever both have one, end
    with different ledgers, because one register tool empties the
    nameserver array it is handed. *)
Lemma same_responses_different_ledgers :
  exists res1 st1 res2 st2,
    provision inwxToolset ispToolsetPlain baseParams = (Returns res1, st1)
    /\ provision inwxEmptiesNameservers ispToolsetPlain baseParams
       = (Returns res2, st2)
    /\ (forall i ev1 ev2,
          nth_error (trace st1) i = Some ev1 ->
          nth_error (trace st2) i = Some ev2 ->
          settledAs (response ev1) = settledAs (response ev2))
    /\ (forall nm o1 o2,
          callOutcome nm (trace st1) = Some o1 ->
          callOutcome nm (trace st2) = Some o2 ->
          o1 = o2)
    /\ outline (steps res1)
       = [(lit "domain_check", ok_status);
          (lit "domain_register", ok_status);
          (lit "nameserver_set", ok_status);
          (lit "isp_provision", ok_status)]
    /\ outline (steps res2)
       = [(lit "domain_check", ok_status);
          (lit "domain_register", ok_status);
          (lit "nameserver_set", skipped_status);
          (lit "isp_provision", ok_status)]
    /\ outline (steps res1) <> outline (steps res2).
Proof.
  do 4 eexists. split; [reflexivity|]. split; [reflexivity|].
  split; [|split; [|split; [reflexivity|split; [reflexivity|]]]].
  - intros [|[|[|[|i]]]] ev1 ev2 E1 E2; vm_compute in E1, E2;
      try discriminate;
      injection E1 as <-; injection E2 as <-; reflexivity.
  - intros nm o1 o2.
    cbv -[str_eqb].
    repeat match goal with
    | |- context [str_eqb ?a nm] => destruct (str_eqb a nm)
    end;
    intros E1 E2; try discriminate;
    injection E1 as <-; injection E2 as <-; reflexivity.
  - vm_compute. discriminate.
Qed.

(** C9 at the guard tests: a read-only policy blocks
    [inwx_domain_register]. *)
Lemma guard_enforces_policy_witness :
  exists msg,
    run (guard readOnlyPolicy WriteOperation registerTool)
        [(lit "domain", JStr (lit "should-be-blocked.de"))] 0%nat
      = (rejects (ErrorInstance msg), 0%nat)
    /\ occurs_in (lit "readOnly") msg
    /\ occurs_in (name registerTool) msg.
Proof.
  apply (proj1 (@guard_enforces_policy World readOnlyPolicy WriteOperation
                  registerTool
                  [(lit "domain", JStr (lit "should-be-blocked.de"))] 0%nat));
    reflexivity.
Defined.

(** An allow-list blocks the unlisted [inwx_domain_check], a read. *)
Example allow_list_blocks_unlisted :
  exists msg,
    run (guard accountOnlyPolicy ReadOperation (checkTool true))
        [(lit "domain", JStr (lit "should-be-blocked.de"))] 0%nat
      = (rejects (ErrorInstance msg), 0%nat)
    /\ occurs_in (lit "allowedOperations") msg.
Proof.
  eexists. split; [reflexivity|].
  exists (lit "Operation inwx_domain_check is blocked by policy: "), [].
  reflexivity.
Qed.

(** A listed tool is forwarded. *)
Example allow_list_forwards_listed :
  run (guard accountOnlyPolicy ReadOperation
         (mockTool (lit "inwx_account_info") (JObj [])))
      [] 0%nat
  = (fulfils (JObj []), 1%nat).
Proof. reflexivity. Qed.

(** C10 at the failing registration of the tests. *)
Lemma error_step_unique_and_last_witness :
  exists res st',
    provision inwxRegisterFails ispToolset baseParams = (Returns res, st')
    /\ (List.length (filter is_error (steps res)) <= 1)%nat
    /\ (forall pre s post,
           steps res = pre ++ s :: post -> status s = error_status ->
           post = [])
    /\ (ok res = true <->
        forall s, In s (steps res) -> status s <> error_status).
Proof.
  do 2 eexists. split; [reflexivity|].
  eapply (@error_step_unique_and_last World numberToString
            inwxRegisterFails ispToolset baseParams (init 0%nat)).
  reflexivity.
Defined.

End Witnesses.

(* ================================================================== *)
(** ** The further statements at concrete inputs *)
(* ================================================================== *)

Module MoreWitnesses.
Import Fixtures MoreFixtures.

(** X2 at the failing registration of the tests, and at a register tool
    that rejects with [{ toString: 1 }]. *)
Lemma registration_failure_aborts_witness :
  (invoked (lit "inwx_nameserver_set")
           (trace (snd (provision inwxRegisterFails ispToolset baseParams)))
   = false
   /\ invoked (lit "isp_provision_site")
              (trace (snd (provision inwxRegisterFails ispToolset baseParams)))
      = false
   /\ exists res s,
        fst (provision inwxRegisterFails ispToolset baseParams) = Returns res
        /\ ok res = false
        /\ outline (steps res)
           = [(lit "domain_check", ok_status);
              (lit "domain_register", error_status)]
        /\ nth_error (steps res) 1 = Some s
        /\ step s = lit "domain_register"
        /\ status s = error_status
        /\ data s = None
        /\ error s = Some (lit "Insufficient balance")
        /\ created res = emptyCreated)
  /\ fst (provision
            [checkTool true;
             throwingTool (lit "inwx_domain_register") noString]
            ispToolset baseParams)
     = Throws typeError.
Proof.
  split.
  - exact (@registration_failure_aborts World numberToString
             inwxRegisterFails ispToolset baseParams 0%nat
             (fst (provision inwxRegisterFails ispToolset baseParams))
             (snd (provision inwxRegisterFails ispToolset baseParams))
             (ErrorInstance (lit "Insufficient balance"))
             eq_refl eq_refl).
  - exact (proj2 (proj2
      (@registration_failure_aborts World numberToString
         [checkTool true; throwingTool (lit "inwx_domain_register") noString]
         ispToolset baseParams 0%nat _ _
         (ThrownValue noString) eq_refl eq_refl))).
Defined.

(** X3 at a register tool that empties the array of the two
    nameservers given. *)
Lemma empty_nameservers_skip_to_hosting_witness :
  exists res st',
    provision inwxEmptiesNameservers ispToolset baseParams
      = (Returns res, st')
    /\ nameservers baseParams <> []
    /\ invoked (lit "inwx_nameserver_set") (trace st') = false
    /\ nameserversConfigured (created res) = None
    /\ (forall s3,
          nth_error (steps res) 2 = Some s3 ->
          step s3 = lit "nameserver_set"
          /\ status s3 = skipped_status
          /\ data s3
             = Some (JObj [(lit "reason",
                            JStr (lit "no nameservers provided"))])
          /\ error s3 = None
          /\ exists s4,
               nth_error (outline (steps res)) 3
                 = Some (lit "isp_provision", s4)).
Proof.
  do 2 eexists. split; [reflexivity|].
  split; [vm_compute; discriminate|].
  eapply (@empty_nameservers_skip_to_hosting World numberToString
            inwxEmptiesNameservers ispToolset baseParams 0%nat);
    reflexivity.
Defined.

(** X4 at the full run of the first test: the register tool is called,
    with period 1 and no contacts. *)
Lemma registration_call_witness :
  (invoked (lit "inwx_domain_register")
           (trace (snd (provision inwxToolset ispToolset baseParams))) = true <->
   flag (skipRegistration baseParams) = false
   /\ reportedAvailability
        (trace (snd (provision inwxToolset ispToolset baseParams))) = Some true
   /\ hasTool inwxToolset (lit "inwx_domain_register") = true)
  /\ (forall args,
        callArgs (lit "inwx_domain_register")
                 (trace (snd (provision inwxToolset ispToolset baseParams)))
          = Some args ->
        args
        = [(lit "domain", JStr (trim (domain baseParams)));
           (lit "period", JNum number_one);
           (lit "ns", JArr (map JStr (nameservers baseParams)));
           (lit "contacts", JUndefined)]).
Proof.
  eapply (@registration_call World numberToString
            inwxToolset ispToolset baseParams 0%nat).
  reflexivity.
Defined.

(** X5 at [baseParams({ createMail: false, createDb: false,
    serverId: 2 })]. *)
Lemma hosting_call_arguments_witness :
  exists args,
    callArgs (lit "isp_provision_site")
             (trace (snd (provision inwxToolset ispToolset hostingParams)))
      = Some args
    /\ get_prop args (lit "createMail") = Some (JBool false)
    /\ get_prop args (lit "createDb") = Some (JBool false)
    /\ get_prop args (lit "serverId") = Some (JNum number_two)
    /\ List.length args = 7%nat.
Proof.
  eexists. split; [reflexivity|].
  destruct (@hosting_call_arguments World numberToString
              inwxToolset ispToolset hostingParams 0%nat _ _ _
              eq_refl eq_refl)
    as (_ & _ & _ & _ & Mail & Db & Id & Len).
  repeat split; assumption.
Defined.

(** X6 at a padded domain: the four calls get [example.com]. *)
Lemma trimmed_domain_everywhere_witness :
  exists res st' evs,
    provision inwxToolset ispToolset paddedParams = (Returns res, st')
    /\ trace st' = [] ++ evs
    /\ resultDomain res = trim (lit "  example.com ")
    /\ (forall nm args out,
          In (EvCall nm args out) evs ->
          get_prop args (lit "domain")
          = Some (JStr (trim (lit "  example.com ")))).
Proof.
  do 2 eexists.
  destruct (@trimmed_domain_everywhere World numberToString
              inwxToolset ispToolset paddedParams (init 0%nat) _ _ eq_refl)
    as (evs & T & D & Calls).
  exists evs. split; [reflexivity|].
  split; [exact T|]. split; [exact D | exact Calls].
Defined.

(** X7 at the same padded domain. *)
Lemma result_domain_strips_surrounding_space_witness :
  exists res st',
    provision inwxToolset ispToolset paddedParams = (Returns res, st')
    /\ exists pre post,
         domain paddedParams = pre ++ resultDomain res ++ post
         /\ forallb isWhiteSpace pre = true
         /\ forallb isWhiteSpace post = true
         /\ (forall c, hd_error (resultDomain res) = Some c ->
                       isWhiteSpace c = false)
         /\ (forall c, hd_error (rev (resultDomain res)) = Some c ->
                       isWhiteSpace c = false).
Proof.
  do 2 eexists. split; [reflexivity|].
  eapply (@result_domain_strips_surrounding_space World numberToString
            inwxToolset ispToolset paddedParams (init 0%nat)).
  reflexivity.
Defined.

(** X8 at the failing registration: a ledger of two steps. *)
Lemma ledger_follows_stage_order_witness :
  exists res st',
    provision inwxRegisterFails ispToolset baseParams = (Returns res, st')
    /\ map (@step) (steps res) = [lit "domain_check"; lit "domain_register"]
    /\ (ok res = true -> List.length (steps res) = 4%nat).
Proof.
  do 2 eexists. split; [reflexivity|].
  destruct (@ledger_follows_stage_order World numberToString
              inwxRegisterFails ispToolset baseParams (init 0%nat) _ _ eq_refl)
    as ((Names & _) & Four).
  split; [exact Names | exact Four].
Defined.


(** X10 at the failing registration: two events, the second one the
    failure. *)
Lemma failure_ends_the_run_witness :
  exists res st' evs,
    provision inwxRegisterFails ispToolset baseParams = (Returns res, st')
    /\ trace st' = [] ++ evs
    /\ (forall pre ev post,
          evs = pre ++ ev :: post -> succeeded ev = false -> post = [])
    /\ (List.length evs <= 4)%nat
    /\ ok res = forallb succeeded evs.
Proof.
  do 2 eexists.
  destruct (@failure_ends_the_run World numberToString
              inwxRegisterFails ispToolset baseParams (init 0%nat) _ _ eq_refl)
    as (evs & T & Last & Len & Ok).
  exists evs. split; [reflexivity|].
  split; [exact T|]. split; [exact Last|]. split; [exact Len|].
  apply Ok. vm_compute. discriminate.
Defined.

(** X11 at the taken domain: check, nameserver, hosting. *)
Lemma calls_follow_stage_order_witness :
  exists res st' evs,
    provision inwxToolsetTaken ispToolset baseParams = (Returns res, st')
    /\ trace st' = [] ++ evs
    /\ isSubsequence (callNames evs) workflowTools = true.
Proof.
  do 2 eexists.
  destruct (@calls_follow_stage_order World numberToString
              inwxToolsetTaken ispToolset baseParams (init 0%nat) _ _ eq_refl)
    as (evs & T & Sub).
  exists evs. split; [reflexivity|]. split; [exact T | exact Sub].
Defined.

(** X12 at the full run of the first test. *)
Lemma success_needs_the_tools_witness :
  hasTool inwxToolset (lit "inwx_domain_check") = true
  /\ hasTool ispToolset (lit "isp_provision_site") = true
  /\ hasTool inwxToolset (lit "inwx_nameserver_set") = true
  /\ hasTool inwxToolset (lit "inwx_domain_register") = true.
Proof.
  destruct (@success_needs_the_tools World numberToString
              inwxToolset ispToolset baseParams 0%nat _ _
              eq_refl eq_refl)
    as (Check & Hosting & Ns & Register).
  split; [exact Check|]. split; [exact Hosting|]. split.
  - apply Ns. vm_compute. discriminate.
  - apply Register. reflexivity.
Defined.

(** X13 at the run without nameservers: two [ok] steps, a [skipped]
    one, an [ok] one. *)
Lemma steps_are_well_shaped_witness :
  exists res st',
    provision inwxToolset ispToolset noNameserverParams = (Returns res, st')
    /\ forallb stepShape (steps res) = true.
Proof.
  do 2 eexists. split; [reflexivity|].
  eapply (@steps_are_well_shaped World numberToString
            inwxToolset ispToolset noNameserverParams (init 0%nat)).
  reflexivity.
Defined.

(** X14 at a check that answers [{ avail: "false" }]: the string is
    truthy, so the domain is registered. *)
Lemma registration_follows_truthiness_witness :
  exists res st',
    provision inwxAvailAsString ispToolset baseParams = (Returns res, st')
    /\ hasStep (lit "domain_register") skipped_status (steps res) = false
    /\ invoked (lit "inwx_domain_register") (trace st') = true.
Proof.
  do 2 eexists. split; [reflexivity|].
  eapply (@registration_follows_truthiness World numberToString
            inwxAvailAsString ispToolset baseParams 0%nat _ _
            checkRecord _ (JStr (lit "false")));
    reflexivity.
Defined.

(** X16 at a padded domain fed back once trimmed. *)
Lemma result_domain_is_stable_witness :
  exists res1 st1' res2 st2',
    provisionDomainWithHosting numberToString inwxToolsetTaken []
      paddedParams (init 3%nat) = (Returns res1, st1')
    /\ provision inwxToolset ispToolset baseParams = (Returns res2, st2')
    /\ domain baseParams = resultDomain res1
    /\ resultDomain res2 = resultDomain res1.
Proof.
  do 4 eexists. split; [reflexivity|]. split; [reflexivity|].
  split; [reflexivity|].
  eapply (@result_domain_is_stable World numberToString
            inwxToolsetTaken [] inwxToolset ispToolset
            paddedParams baseParams (init 3%nat) (init 0%nat));
    reflexivity.
Defined.

(** X18 at an empty nameserver list that the register tool fills:
    the nameserver tool is called, with what the array holds then. *)
Lemma check_and_nameserver_call_arguments_witness :
  nameservers noNameserverParams = []
  /\ callArgs (lit "inwx_domain_check")
       (trace (snd (provision inwxFillsThenSets ispToolset noNameserverParams)))
     = Some [(lit "domain", JStr (lit "example.com"))]
  /\ callArgs (lit "inwx_nameserver_set")
       (trace (snd (provision inwxFillsThenSets ispToolset noNameserverParams)))
     = Some [(lit "domain", JStr (lit "example.com"));
             (lit "ns", JArr [JStr (lit "ns1.registrar.example")])].
Proof.
  destruct (@check_and_nameserver_call_arguments World numberToString
              inwxFillsThenSets ispToolset noNameserverParams 0%nat _ _
              eq_refl)
    as (Check & Ns).
  split; [reflexivity|]. split.
  - exact (f_equal Some (Check _ eq_refl)).
  - exact (f_equal Some (proj2 (Ns _ eq_refl))).
Defined.

End MoreWitnesses.
